(** * nemotron_daemon.py: the three modes of the speech-recognition shim

    A shallow embedding of [src/python/nemotron_daemon.py].  The script has
    three entry points, [check_gpu], [download_model] and [run_server]; each
    calls into external libraries (torch, huggingface_hub, NeMo, json, os)
    and prints JSON objects on standard output.

    The external libraries are collaborators of the script: what they answer
    is collected in a record [World], and every statement below quantifies
    over all worlds.  What the script itself does (the order of its calls,
    which exceptions it catches and where, what it prints) is written out
    as executable definitions.

    Conventions of the model:
    - a Python [str] is a [string]; its characters are the code points
      below 256;
    - a Python exception is a class together with the text [str(e)] gives;
      collaborators raise subclasses of [Exception] only (a
      [KeyboardInterrupt] or a [SystemExit] from inside a library is not
      modelled);
    - [print(json.dumps(o), flush=True)] is the event [Print o]: the
      object is recorded before serialisation, and writing to standard
      output does not fail. *)

From Stdlib Require Import String Ascii List ZArith Bool Arith Lia.
From Stdlib Require Import Floats.SpecFloat.
Import ListNotations.
Local Open Scope string_scope.
Local Open Scope list_scope.
Local Set Warnings "-register-all".

(** ** Python values *)

Module Py.

(** The values [json.loads] can return and [json.dumps] accepts.  A [dict]
    is kept as an association list in insertion order; its lookup takes the
    first binding of a key. *)
Inductive value : Type :=
| VNone
| VBool (b : bool)
| VInt (z : Z)
| VFloat (f : spec_float)
| VStr (s : string)
| VList (l : list value)
| VDict (d : list (string * value)).

(** [type(v).__name__] *)
Definition type_name (v : value) : string :=
  match v with
  | VNone => "NoneType"
  | VBool _ => "bool"
  | VInt _ => "int"
  | VFloat _ => "float"
  | VStr _ => "str"
  | VList _ => "list"
  | VDict _ => "dict"
  end.

(** The exception classes the script tells apart, or that the language
    itself raises in it.  [ImportError] stands for the class and its
    subclasses ([ModuleNotFoundError]); [OtherException] for every other
    subclass of [Exception]. *)
Inductive exn_class : Type :=
| ImportError
| AttributeError
| TypeError
| ValueError
| OtherException.

Record exn : Type := mkExn { exn_cls : exn_class; exn_str : string }.

(** [isinstance(e, ImportError)] *)
Definition is_ImportError (e : exn) : bool :=
  match exn_cls e with
  | ImportError => true
  | _ => false
  end.

(** The outcome of a call that may raise. *)
Inductive result (A : Type) : Type :=
| Ok (a : A)
| Raise (e : exn).
Arguments Ok {A} a.
Arguments Raise {A} e.

(** Lookup of a key in a dict. *)
Fixpoint assoc (key : string) (d : list (string * value)) : option value :=
  match d with
  | [] => None
  | (k, v) :: rest => if String.eqb k key then Some v else assoc key rest
  end.

(** The value of a field of an object, when it is an object and has the
    field; and the names of its fields, in order. *)
Definition field (o : value) (key : string) : option value :=
  match o with
  | VDict d => assoc key d
  | _ => None
  end.

Definition fields (o : value) : list string :=
  match o with
  | VDict d => map fst d
  | _ => []
  end.

(** [d.get(key)] on a dict: the value, or [None] for an absent key. *)
Definition dict_get (d : list (string * value)) (key : string) : value :=
  match assoc key d with
  | Some v => v
  | None => VNone
  end.

(** [req.get(key)]: a dict answers as above; any other JSON value has no
    attribute [get]. *)
Definition get (req : value) (key : string) : result value :=
  match req with
  | VDict d => Ok (dict_get d key)
  | _ =>
      Raise (mkExn AttributeError
               ("'" ++ type_name req ++ "' object has no attribute 'get'"))
  end.

(** [v == s] for a string literal [s]: only a [str] can be equal to one. *)
Definition eq_str (v : value) (s : string) : bool :=
  match v with
  | VStr t => String.eqb t s
  | _ => false
  end.

(** Characters for which [str.isspace] holds, among the code points
    below 256: tab to carriage return, the four separators 28 to 31, the
    space, NEL and the no-break space. *)
Definition is_space (c : ascii) : bool :=
  let n := nat_of_ascii c in
  (((9 <=? n) && (n <=? 13)) || ((28 <=? n) && (n <=? 32))
   || (n =? 133) || (n =? 160))%nat.

Fixpoint lstrip (s : string) : string :=
  match s with
  | EmptyString => EmptyString
  | String c rest => if is_space c then lstrip rest else s
  end.

Fixpoint rev_string (s acc : string) : string :=
  match s with
  | EmptyString => acc
  | String c rest => rev_string rest (String c acc)
  end.

Definition rstrip (s : string) : string :=
  rev_string (lstrip (rev_string s EmptyString)) EmptyString.

(** [s.strip()] *)
Definition strip (s : string) : string := rstrip (lstrip s).

(** Truth value of a [str]: the empty string is false. *)
Definition truthy_str (s : string) : bool :=
  match s with
  | EmptyString => false
  | String _ _ => true
  end.

End Py.

Import Py.

(** ** Events and the output monad *)

(** What a run does that can be seen from outside, in order. *)
Inductive event : Type :=
| Read (line : string)           (* the loop took [line] from [sys.stdin] *)
| Print (obj : value)            (* one JSON line on standard output *)
| Transcribe (files : list value). (* [self.model.transcribe(files)] called *)

(** A computation that leaves events behind and returns or raises. *)
Definition M (A : Type) : Type := list event * result A.

Definition ret {A} (a : A) : M A := ([], Ok a).

Definition bind {A B} (m : M A) (k : A -> M B) : M B :=
  match m with
  | (evs, Ok a) => let (evs', r) := k a in (evs ++ evs', r)
  | (evs, Raise e) => (evs, Raise e)
  end.

Definition lift {A} (r : result A) : M A := ([], r).

Definition emit (e : event) : M unit := ([e], Ok tt).

(** [print(json.dumps(obj), flush=True)] *)
Definition print (obj : value) : M unit := emit (Print obj).

Notation "x <- m ;; k" := (bind m (fun x => k))
  (at level 61, m at next level, right associativity).
Notation "m ;;; k" := (bind m (fun _ => k))
  (at level 61, right associativity).

(** The objects printed by a trace, and the lines it read. *)
Fixpoint printed (tr : list event) : list value :=
  match tr with
  | [] => []
  | Print o :: rest => o :: printed rest
  | _ :: rest => printed rest
  end.

Fixpoint lines_read (tr : list event) : list string :=
  match tr with
  | [] => []
  | Read l :: rest => l :: lines_read rest
  | _ :: rest => lines_read rest
  end.

Fixpoint model_calls (tr : list event) : list (list value) :=
  match tr with
  | [] => []
  | Transcribe fs :: rest => fs :: model_calls rest
  | _ :: rest => model_calls rest
  end.

(** [try: m except Exception as e: h e] *)
Definition try_except {A} (m : M A) (h : exn -> M A) : M A :=
  match m with
  | (evs, Ok a) => (evs, Ok a)
  | (evs, Raise e) => let (evs', r) := h e in (evs ++ evs', r)
  end.

(** ** The collaborators *)

(** What the external libraries answer.  The file system and the model
    may answer differently from one request to the next: their fields take
    the number of lines the server has read so far. *)
Record World : Type := {
  (* [import torch] *)
  import_torch : result unit;
  (* [import nemo.collections.asr as nemo_asr] *)
  import_nemo : result unit;
  (* [from huggingface_hub import snapshot_download] *)
  import_hub : result unit;
  (* [torch.cuda.is_available()] *)
  cuda_is_available : result bool;
  (* [torch.cuda.get_device_name(i)] *)
  cuda_get_device_name : Z -> result string;
  (* [snapshot_download(repo_id=name)] *)
  snapshot_download : string -> result string;
  (* [nemo_asr.models.ASRModel.from_pretrained(name)] *)
  from_pretrained : string -> result unit;
  (* [model.freeze()] and [model.to(device)] *)
  model_freeze : result unit;
  model_to : string -> result unit;
  (* [model.transcribe(files)]: a list of strings *)
  model_transcribe : nat -> list value -> result (list string);
  (* [json.loads(line)] *)
  loads : string -> result value;
  (* [os.stat(path)] succeeds, for a path given as a [str] *)
  path_stat_ok : nat -> string -> bool;
  (* [os.stat(fd)] for a file descriptor: succeeds, fails with [OSError]
     (false), or raises ([OverflowError] for a descriptor out of range) *)
  fd_stat_ok : nat -> Z -> result bool
}.

(** [os.path.exists(path)]: [os.stat] inside a [try] that turns [OSError]
    and [ValueError] into [False].  A [str] is a path, an [int] (and so a
    [bool]) a file descriptor; for anything else [os.stat] raises
    [TypeError], which [os.path.exists] does not catch. *)
Definition os_path_exists (W : World) (n : nat) (path : value) : result bool :=
  match path with
  | VStr s => Ok (path_stat_ok W n s)
  | VInt fd => fd_stat_ok W n fd
  | VBool b => fd_stat_ok W n (if b then 1%Z else 0%Z)
  | _ =>
      Raise (mkExn TypeError
               ("stat: path should be string, bytes, os.PathLike or integer, not "
                ++ type_name path))
  end.

(** ** [check_gpu] *)

Definition check_gpu_try (W : World) : M unit :=
  _ <- lift (import_torch W);;
  available <- lift (cuda_is_available W);;
  device_name <- (if available : bool
                  then name <- lift (cuda_get_device_name W 0);; ret (VStr name)
                  else ret VNone);;
  print (VDict [("available", VBool available); ("device", device_name)]).

Definition check_gpu (W : World) : M unit :=
  try_except (check_gpu_try W)
    (fun e =>
       if is_ImportError e
       then print (VDict [("available", VBool false);
                          ("error", VStr "torch not installed")])
       else print (VDict [("available", VBool false);
                          ("error", VStr (exn_str e))])).

(** ** [download_model] *)

Definition download_model_try (W : World) (model_name : string) : M unit :=
  _ <- lift (import_hub W);;
  print (VDict [("status", VStr "starting"); ("model", VStr model_name)]);;;
  path <- lift (snapshot_download W model_name);;
  print (VDict [("status", VStr "complete"); ("path", VStr path)]).

Definition download_model (W : World) (model_name : string) : M unit :=
  try_except (download_model_try W model_name)
    (fun e =>
       print (VDict [("status", VStr "error"); ("message", VStr (exn_str e))])).

(** ** [run_server] *)

(** The state of a [NemotronService]: the device name (the model handle
    lives in the world). *)
Record NemotronService : Type := { device : string }.

(** [NemotronService.__init__] *)
Definition NemotronService_init (W : World) (model_name : string)
  : M NemotronService :=
  available <- lift (cuda_is_available W);;
  let dev := if available : bool then "cuda" else "cpu" in
  _ <- lift (from_pretrained W model_name);;
  _ <- lift (model_freeze W);;
  _ <- lift (model_to W dev);;
  ret {| device := dev |}.

(** [NemotronService.transcribe] *)
Definition service_transcribe (W : World) (n : nat) (file_path : value)
  : M string :=
  emit (Transcribe [file_path]);;;
  transcriptions <- lift (model_transcribe W n [file_path]);;
  ret (match transcriptions with
       | t :: _ => t
       | [] => ""
       end).

(** How the body of the [for] loop ends. *)
Inductive flow : Type :=
| Normal      (* the body ran to its end *)
| Continue    (* [continue] *)
| Break.      (* [break] *)

Definition file_not_found (req_id : value) : value :=
  VDict [("type", VStr "error"); ("message", VStr "File not found");
         ("id", req_id)].

Definition transcription (text : string) (file_path req_id : value) : value :=
  VDict [("type", VStr "result"); ("text", VStr text);
         ("file_path", file_path); ("id", req_id)].

Definition pong : value := VDict [("type", VStr "pong")].

Definition error_response (e : exn) : value :=
  VDict [("type", VStr "error"); ("message", VStr (exn_str e))].

Definition fatal_response (e : exn) : value :=
  VDict [("type", VStr "fatal"); ("message", VStr (exn_str e))].

Definition ready_status (service : NemotronService) : value :=
  VDict [("type", VStr "status"); ("status", VStr "ready");
         ("device", VStr (device service))].

Definition not_installed : value :=
  VDict [("type", VStr "error"); ("message", VStr "NeMo/Torch not installed")].

(** The body of the inner [try], lines 78 to 96. *)
Definition handle_request (W : World) (n : nat) (line : string) : M flow :=
  req <- lift (loads W line);;
  command <- lift (get req "command");;
  if eq_str command "transcribe" then
    file_path <- lift (get req "file_path");;
    req_id <- lift (get req "id");;
    found <- lift (os_path_exists W n file_path);;
    if negb found then
      print (file_not_found req_id);;;
      ret Continue
    else
      text <- service_transcribe W n file_path;;
      print (transcription text file_path req_id);;;
      ret Normal
  else if eq_str command "ping" then
    print pong;;;
    ret Normal
  else if eq_str command "exit" then
    ret Break
  else
    ret Normal.

(** The body of the [for] loop, lines 76 to 99, for the [n]-th line. *)
Definition handle_line (W : World) (n : nat) (line : string) : M flow :=
  if negb (truthy_str (strip line)) then ret Continue
  else
    try_except (handle_request W n line)
      (fun e => print (error_response e);;; ret Normal).

(** What iterating over [sys.stdin] gives: a line, or an exception raised
    by the read itself (an undecodable byte sequence, say). *)
Inductive read_event : Type :=
| Line (line : string)
| ReadFails (e : exn).

(** The [for] loop, lines 75 to 99; [n] counts the lines read before. *)
Fixpoint server_loop (W : World) (n : nat) (stdin : list read_event)
  : M unit :=
  match stdin with
  | [] => ret tt
  | ReadFails e :: _ => lift (Raise e)
  | Line line :: rest =>
      emit (Read line);;;
      f <- handle_line W n line;;
      match f with
      | Break => ret tt
      | Normal | Continue => server_loop W (S n) rest
      end
  end.

(** How the process leaves [run_server]. *)
Inductive outcome : Type :=
| Returned                (* the function returned *)
| SysExit (code : Z)      (* [sys.exit(code)] *)
| Uncaught (e : exn).     (* an exception left the function *)

(** The outer [try], lines 71 to 102. *)
Definition serve (W : World) (model_name : string) (stdin : list read_event)
  : M unit :=
  try_except
    (service <- NemotronService_init W model_name;;
     print (ready_status service);;;
     server_loop W 0 stdin)
    (fun e => print (fatal_response e)).

Definition run_server (W : World) (model_name : string)
  (stdin : list read_event) : list event * outcome :=
  match bind (lift (import_torch W)) (fun _ => lift (import_nemo W)) with
  | (_, Raise e) =>
      if is_ImportError e
      then ([Print not_installed], SysExit 1)
      else ([], Uncaught e)
  | (_, Ok _) =>
      match serve W model_name stdin with
      | (evs, Ok _) => (evs, Returned)
      | (evs, Raise e) => (evs, Uncaught e)
      end
  end.

(** ** The entry point *)

(** What [parser.parse_args()] returns: [args.mode] and [args.model].  The
    parser is a collaborator; it lets through a mode among its [choices]
    only, and gives [--model] its default when the option is absent. *)
Record Namespace : Type := { mode : string; model : string }.

Definition choices : list string := ["check-gpu"; "download"; "server"]%string.

(** A call of [check_gpu] or [download_model] seen as the end of the
    process. *)
Definition completes (m : M unit) : list event * outcome :=
  match m with
  | (evs, Ok _) => (evs, Returned)
  | (evs, Raise e) => (evs, Uncaught e)
  end.

(** The dispatch of lines 110 to 115. *)
Definition main (W : World) (args : Namespace) (stdin : list read_event)
  : list event * outcome :=
  if String.eqb (mode args) "check-gpu" then completes (check_gpu W)
  else if String.eqb (mode args) "download" then
    completes (download_model W (model args))
  else if String.eqb (mode args) "server" then
    run_server W (model args) stdin
  else ([], Returned).

(** ** Two concrete worlds *)

Module Demo.
Local Open Scope string_scope.

Definition dq : string := String (ascii_of_nat 34) EmptyString.
Definition nl : string := String (ascii_of_nat 10) EmptyString.
Definition quoted (s : string) : string := dq ++ s ++ dq.

(** A JSON object on one line, from its members already written out. *)
Definition member (k v : string) : string := quoted k ++ ": " ++ v.
Definition object_line (members : list string) : string :=
  "{" ++ String.concat ", " members ++ "}" ++ nl.

Definition ping_line : string :=
  object_line [member "command" (quoted "ping")].
Definition exit_line : string :=
  object_line [member "command" (quoted "exit")].
Definition reload_line : string :=
  object_line [member "command" (quoted "reload")].
Definition no_command_line : string :=
  object_line [member "id" "3"].
Definition speech_line : string :=
  object_line [member "command" (quoted "transcribe");
               member "file_path" (quoted "speech.wav"); member "id" "7"].
Definition noise_line : string :=
  object_line [member "command" (quoted "transcribe");
               member "file_path" (quoted "noise.wav"); member "id" "10"].
Definition gone_line : string :=
  object_line [member "command" (quoted "transcribe");
               member "file_path" (quoted "gone.wav"); member "id" "8"].
Definition no_path_line : string :=
  object_line [member "command" (quoted "transcribe"); member "id" "9"].
Definition array_line : string := "[]" ++ nl.
Definition garbage_line : string := "not json" ++ nl.
Definition blank_line : string := "  " ++ nl.

(** What [json.loads] answers on the lines above. *)
Definition decoded : list (string * value) :=
  [ (ping_line, VDict [("command", VStr "ping")]);
    (exit_line, VDict [("command", VStr "exit")]);
    (reload_line, VDict [("command", VStr "reload")]);
    (no_command_line, VDict [("id", VInt 3)]);
    (speech_line, VDict [("command", VStr "transcribe");
                         ("file_path", VStr "speech.wav"); ("id", VInt 7)]);
    (noise_line, VDict [("command", VStr "transcribe");
                        ("file_path", VStr "noise.wav"); ("id", VInt 10)]);
    (gone_line, VDict [("command", VStr "transcribe");
                       ("file_path", VStr "gone.wav"); ("id", VInt 8)]);
    (no_path_line, VDict [("command", VStr "transcribe"); ("id", VInt 9)]);
    (array_line, VList []) ].

(** A decoder that knows the lines of the table; every other line it
    meets here starts with something that is no JSON value. *)
Definition demo_loads (line : string) : result value :=
  match assoc line decoded with
  | Some v => Ok v
  | None => Raise (mkExn ValueError "Expecting value: line 1 column 1 (char 0)")
  end.

Definition no_module (name : string) : exn :=
  mkExn ImportError ("No module named '" ++ name ++ "'").

(** A machine with a GPU and every library installed; it holds
    [speech.wav] and [noise.wav], and the model fails on the second. *)
Definition gpu_box : World := {|
  import_torch := Ok tt;
  import_nemo := Ok tt;
  import_hub := Ok tt;
  cuda_is_available := Ok true;
  cuda_get_device_name := fun _ => Ok "NVIDIA RTX 4090";
  snapshot_download := fun name => Ok ("/cache/" ++ name);
  from_pretrained := fun _ => Ok tt;
  model_freeze := Ok tt;
  model_to := fun _ => Ok tt;
  model_transcribe := fun _ files =>
    match files with
    | [VStr "speech.wav"] => Ok ["hello world"]
    | _ => Raise (mkExn OtherException "unsupported audio format")
    end;
  loads := demo_loads;
  path_stat_ok := fun _ p =>
    String.eqb p "speech.wav" || String.eqb p "noise.wav";
  fd_stat_ok := fun _ fd => Ok ((0 <=? fd)%Z && (fd <=? 2)%Z)
|}.

(** A machine with none of the libraries. *)
Definition bare_box : World := {|
  import_torch := Raise (no_module "torch");
  import_nemo := Raise (no_module "nemo");
  import_hub := Raise (no_module "huggingface_hub");
  cuda_is_available := Ok false;
  cuda_get_device_name := fun _ => Raise (mkExn OtherException "no CUDA");
  snapshot_download := fun _ => Raise (mkExn OtherException "offline");
  from_pretrained := fun _ => Raise (mkExn OtherException "offline");
  model_freeze := Ok tt;
  model_to := fun _ => Ok tt;
  model_transcribe := fun _ _ => Ok [];
  loads := demo_loads;
  path_stat_ok := fun _ _ => false;
  fd_stat_ok := fun _ fd => Ok ((0 <=? fd)%Z && (fd <=? 2)%Z)
|}.

(** A machine where the hub library is there but the network is not. *)
Definition offline_box : World := {|
  import_torch := Ok tt;
  import_nemo := Ok tt;
  import_hub := Ok tt;
  cuda_is_available := Ok false;
  cuda_get_device_name := fun _ => Raise (mkExn OtherException "no CUDA");
  snapshot_download := fun _ => Raise (mkExn OtherException "offline");
  from_pretrained := fun _ => Raise (mkExn OtherException "offline");
  model_freeze := Ok tt;
  model_to := fun _ => Ok tt;
  model_transcribe := fun _ _ => Ok [];
  loads := demo_loads;
  path_stat_ok := fun _ _ => false;
  fd_stat_ok := fun _ fd => Ok ((0 <=? fd)%Z && (fd <=? 2)%Z)
|}.

Definition model_name : string := "nvidia/nemotron-speech-streaming-en-0.6b".

End Demo.

(** ** A further world *)

Module Demo2.
Local Open Scope string_scope.
Import Demo.

(** A ping that brings a field the server does not know. *)
Definition tagged_ping_line : string :=
  object_line [member "command" (quoted "ping");
               member "client" (quoted "tray")].

(** The decoder of [Demo], taught the line above. *)
Definition demo2_loads (line : string) : result value :=
  if String.eqb line tagged_ping_line
  then Ok (VDict [("command", VStr "ping"); ("client", VStr "tray")])
  else demo_loads line.

(** The machine [gpu_box] with that decoder. *)
Definition tray_box : World := {|
  import_torch := import_torch gpu_box;
  import_nemo := import_nemo gpu_box;
  import_hub := import_hub gpu_box;
  cuda_is_available := cuda_is_available gpu_box;
  cuda_get_device_name := cuda_get_device_name gpu_box;
  snapshot_download := snapshot_download gpu_box;
  from_pretrained := from_pretrained gpu_box;
  model_freeze := model_freeze gpu_box;
  model_to := model_to gpu_box;
  model_transcribe := model_transcribe gpu_box;
  loads := demo2_loads;
  path_stat_ok := path_stat_ok gpu_box;
  fd_stat_ok := fd_stat_ok gpu_box
|}.

End Demo2.

(** ** Vocabulary of the statements *)

(** *** Probe and download *)

(** The object printed when the probe goes through. *)
Definition gpu_report (available : bool) (device_name : value) : value :=
  VDict [("available", VBool available); ("device", device_name)].

(** The object printed when it does not. *)
Definition gpu_failure (e : exn) : value :=
  VDict [("available", VBool false);
         ("error", VStr (if is_ImportError e
                         then "torch not installed"
                         else exn_str e))].

(** Where the probe can fail: the import, the availability query, or the
    name query (made only when a device is available). *)
Inductive probe_fails (W : World) (e : exn) : Prop :=
| fails_import :
    import_torch W = Raise e -> probe_fails W e
| fails_available :
    import_torch W = Ok tt -> cuda_is_available W = Raise e ->
    probe_fails W e
| fails_name :
    import_torch W = Ok tt -> cuda_is_available W = Ok true ->
    cuda_get_device_name W 0 = Raise e -> probe_fails W e.

Definition download_starting (model_name : string) : value :=
  VDict [("status", VStr "starting"); ("model", VStr model_name)].

Definition download_complete (path : string) : value :=
  VDict [("status", VStr "complete"); ("path", VStr path)].

Definition download_error (e : exn) : value :=
  VDict [("status", VStr "error"); ("message", VStr (exn_str e))].

(** The download claim as the specification words it: the first line
    printed is the starting status. *)
Definition starts_with_starting (W : World) (model_name : string) : Prop :=
  exists rest,
    fst (download_model W model_name)
    = Print (download_starting model_name) :: rest.

(** *** Lines and requests *)

(** A line made of white space only (the empty line included). *)
Fixpoint whitespace_only (line : string) : bool :=
  match line with
  | EmptyString => true
  | String c rest => is_space c && whitespace_only rest
  end.

(** The line is skipped by the guard of line 76. *)
Definition blank (line : string) : Prop :=
  truthy_str (strip line) = false.

(** The line is a request: it is not blank and decodes to an object. *)
Definition request (W : World) (line : string) (d : list (string * value))
  : Prop :=
  truthy_str (strip line) = true /\ loads W line = Ok (VDict d).

(** A request whose command field is the string [cmd]. *)
Definition command_is (W : World) (line cmd : string) : Prop :=
  exists d, request W line d /\ assoc "command" d = Some (VStr cmd).

(** The value is one of the three commands the server knows. *)
Definition known_command (c : value) : bool :=
  eq_str c "transcribe" || eq_str c "ping" || eq_str c "exit".

(** The body of the inner [try] raises [e] on the line, after the events
    [evs]. *)
Definition handling_raises (W : World) (n : nat) (line : string)
  (evs : list event) (e : exn) : Prop :=
  truthy_str (strip line) = true /\ handle_request W n line = (evs, Raise e).

(** After reading [line] as its [n]-th line the loop leaves the events
    [evs] and goes on with the rest of the input. *)
Definition goes_on (W : World) (n : nat) (line : string) (evs : list event)
  : Prop :=
  forall rest,
    server_loop W n (Line line :: rest)
    = (Read line :: evs ++ fst (server_loop W (S n) rest),
       snd (server_loop W (S n) rest)).

(** The lines of an input. *)
Fixpoint input_lines (stdin : list read_event) : list string :=
  match stdin with
  | [] => []
  | Line l :: rest => l :: input_lines rest
  | ReadFails _ :: rest => input_lines rest
  end.

(** *** Responses *)

(** The objects [run_server] prints. *)
Inductive response : value -> Prop :=
| resp_not_installed : response not_installed
| resp_ready service : response (ready_status service)
| resp_not_found req_id : response (file_not_found req_id)
| resp_result text file_path req_id :
    response (transcription text file_path req_id)
| resp_pong : response pong
| resp_error e : response (error_response e)
| resp_fatal e : response (fatal_response e).

(** The type field is one of the five of the protocol. *)
Definition known_type (o : value) : bool :=
  match field o "type" with
  | Some (VStr t) =>
      existsb (String.eqb t) ["status"; "result"; "error"; "fatal"; "pong"]
  | _ => false
  end.

(** For every line read, the number of objects printed after it and before
    the next line is read. *)
Fixpoint printed_before_read (tr : list event) : nat :=
  match tr with
  | [] => 0
  | Read _ :: _ => 0
  | Print _ :: rest => S (printed_before_read rest)
  | Transcribe _ :: rest => printed_before_read rest
  end.

Fixpoint responses_per_line (tr : list event) : list nat :=
  match tr with
  | [] => []
  | Read _ :: rest => printed_before_read rest :: responses_per_line rest
  | _ :: rest => responses_per_line rest
  end.

(** *** Three claims as the specification words them *)

(** Every line read is answered by exactly one response. *)
Definition one_response_per_line (W : World) (stdin : list read_event)
  : Prop :=
  Forall (fun k => k = 1) (responses_per_line (fst (server_loop W 0 stdin))).

(** A transcribe request whose file path is missing, or names no existing
    file, is answered by an error response carrying the request id; the
    model is not called and the loop goes on. *)
Definition missing_file_answer (W : World) (n : nat) (line : string) : Prop :=
  forall d,
    request W line d ->
    assoc "command" d = Some (VStr "transcribe") ->
    assoc "file_path" d = None
    \/ os_path_exists W n (dict_get d "file_path") = Ok false ->
    exists o,
      field o "type" = Some (VStr "error")
      /\ field o "id" = Some (dict_get d "id")
      /\ goes_on W n line [Print o].

(** A line that decodes to a JSON value with no command field, or with one
    that is none of the three commands, gets no response. *)
Definition unknown_is_silent (W : World) (n : nat) (line : string) : Prop :=
  forall v,
    loads W line = Ok v ->
    match field v "command" with
    | None => True
    | Some c => known_command c = false
    end ->
    printed (fst (handle_line W n line)) = [].

(** *** The ways through the body of the loop *)

(** The events one line leaves and how the body ends, path by path. *)
Inductive line_case (W : World) (n : nat) (line : string)
  : list event -> flow -> Prop :=
| case_blank :
    blank line ->
    line_case W n line [] Continue
| case_raise evs e :
    handling_raises W n line evs e ->
    printed evs = [] ->
    lines_read evs = [] ->
    line_case W n line (evs ++ [Print (error_response e)]) Normal
| case_not_found d :
    request W line d ->
    assoc "command" d = Some (VStr "transcribe") ->
    os_path_exists W n (dict_get d "file_path") = Ok false ->
    line_case W n line [Print (file_not_found (dict_get d "id"))] Continue
| case_result d ts :
    request W line d ->
    assoc "command" d = Some (VStr "transcribe") ->
    os_path_exists W n (dict_get d "file_path") = Ok true ->
    model_transcribe W n [dict_get d "file_path"] = Ok ts ->
    line_case W n line
      [Transcribe [dict_get d "file_path"];
       Print (transcription (hd ""%string ts) (dict_get d "file_path")
                (dict_get d "id"))]
      Normal
| case_pong :
    command_is W line "ping" ->
    line_case W n line [Print pong] Normal
| case_exit :
    command_is W line "exit" ->
    line_case W n line [] Break
| case_other d :
    request W line d ->
    known_command (dict_get d "command") = false ->
    line_case W n line [] Normal.

(** *** Start-up of the server *)

(** One of the two imports of lines 47 and 48 raises [e]. *)
Inductive import_fails (W : World) (e : exn) : Prop :=
| fails_torch :
    import_torch W = Raise e -> import_fails W e
| fails_nemo :
    import_torch W = Ok tt -> import_nemo W = Raise e -> import_fails W e.

Definition imports_succeed (W : World) : Prop :=
  import_torch W = Ok tt /\ import_nemo W = Ok tt.

(** The constructor of the service raises [e]: at the availability query,
    when loading the model, when freezing it or when moving it to the
    device. *)
Inductive startup_fails (W : World) (model_name : string) (e : exn) : Prop :=
| fails_query :
    cuda_is_available W = Raise e -> startup_fails W model_name e
| fails_load a :
    cuda_is_available W = Ok a ->
    from_pretrained W model_name = Raise e ->
    startup_fails W model_name e
| fails_freeze a :
    cuda_is_available W = Ok a ->
    from_pretrained W model_name = Ok tt ->
    model_freeze W = Raise e ->
    startup_fails W model_name e
| fails_move a :
    cuda_is_available W = Ok a ->
    from_pretrained W model_name = Ok tt ->
    model_freeze W = Ok tt ->
    model_to W (if a then "cuda" else "cpu")%string = Raise e ->
    startup_fails W model_name e.

(** The constructor goes through, with [available] the answer of the
    availability query. *)
Definition startup_succeeds (W : World) (model_name : string)
  (available : bool) : Prop :=
  cuda_is_available W = Ok available
  /\ from_pretrained W model_name = Ok tt
  /\ model_freeze W = Ok tt
  /\ model_to W (if available then "cuda" else "cpu")%string = Ok tt.

(** *** Shapes of the responses *)

(** The objects printed from inside the loop. *)
Inductive loop_response : value -> Prop :=
| loop_not_found req_id : loop_response (file_not_found req_id)
| loop_result text file_path req_id :
    loop_response (transcription text file_path req_id)
| loop_pong : loop_response pong
| loop_error e : loop_response (error_response e).

Definition has_type (o : value) (t : string) : Prop :=
  field o "type" = Some (VStr t).

Definition is_str (v : option value) : bool :=
  match v with
  | Some (VStr _) => true
  | _ => false
  end.

(** Two lists of field names are the same. *)
Fixpoint same_fields (a b : list string) : bool :=
  match a, b with
  | [], [] => true
  | x :: a', y :: b' => String.eqb x y && same_fields a' b'
  | _, _ => false
  end.

(** The fields a response has, by its type. *)
Definition well_formed (o : value) : bool :=
  match field o "type" with
  | Some (VStr t) =>
      if String.eqb t "status" then
        same_fields (fields o) ["type"; "status"; "device"]
        && eq_str (dict_get (match o with VDict d => d | _ => [] end) "status")
             "ready"
        && is_str (field o "device")
      else if String.eqb t "result" then
        same_fields (fields o)
          ["type"; "text"; "file_path"; "id"]
        && is_str (field o "text")
      else if String.eqb t "error" then
        (same_fields (fields o) ["type"; "message"]
         || same_fields (fields o) ["type"; "message"; "id"])
        && is_str (field o "message")
      else if String.eqb t "fatal" then
        same_fields (fields o) ["type"; "message"]
        && is_str (field o "message")
      else if String.eqb t "pong" then
        same_fields (fields o) ["type"]
      else false
  | _ => false
  end.

(** A value [os.stat] takes neither for a path nor for a descriptor. *)
Definition not_a_path (v : value) : bool :=
  match v with
  | VNone | VFloat _ | VList _ | VDict _ => true
  | VBool _ | VInt _ | VStr _ => false
  end.

(** Two requests agree on the three fields the server looks at. *)
Definition same_request (d1 d2 : list (string * value)) : Prop :=
  dict_get d1 "command" = dict_get d2 "command"
  /\ dict_get d1 "file_path" = dict_get d2 "file_path"
  /\ dict_get d1 "id" = dict_get d2 "id".
(** ** Capability probe *)

Section CheckGpu.

Variable W : World.

Lemma check_gpu_failure (e : exn) :
  probe_fails W e -> check_gpu W = ([Print (gpu_failure e)], Ok tt).
Proof.
  unfold check_gpu, check_gpu_try, gpu_failure.
  intros [Hi | Hi Ha | Hi Ha Hn].
  - rewrite Hi. cbn. destruct (is_ImportError e); reflexivity.
  - rewrite Hi, Ha. cbn. destruct (is_ImportError e); reflexivity.
  - rewrite Hi, Ha. cbn. rewrite Hn. cbn.
    destruct (is_ImportError e); reflexivity.
Qed.

Lemma check_gpu_no_device :
  import_torch W = Ok tt -> cuda_is_available W = Ok false ->
  check_gpu W = ([Print (gpu_report false VNone)], Ok tt).
Proof.
  intros Hi Ha. unfold check_gpu, check_gpu_try. rewrite Hi, Ha. reflexivity.
Qed.

Lemma check_gpu_device (name : string) :
  import_torch W = Ok tt -> cuda_is_available W = Ok true ->
  cuda_get_device_name W 0 = Ok name ->
  check_gpu W = ([Print (gpu_report true (VStr name))], Ok tt).
Proof.
  intros Hi Ha Hn. unfold check_gpu, check_gpu_try.
  rewrite Hi, Ha. cbn. rewrite Hn. reflexivity.
Qed.

(** The probe either goes through or fails at one of the three places. *)
Lemma probe_cases :
  (import_torch W = Ok tt /\ cuda_is_available W = Ok false)
  \/ (exists name, import_torch W = Ok tt /\ cuda_is_available W = Ok true
                   /\ cuda_get_device_name W 0 = Ok name)
  \/ (exists e, probe_fails W e).
Proof.
  destruct (import_torch W) as [[] | e] eqn:Hi.
  - destruct (cuda_is_available W) as [[] | e] eqn:Ha.
    + destruct (cuda_get_device_name W 0) as [name | e] eqn:Hn.
      * right; left. exists name. auto.
      * right; right. exists e. now apply fails_name.
    + left. auto.
    + right; right. exists e. now apply fails_available.
  - right; right. exists e. now apply fails_import.
Qed.

End CheckGpu.

(** C4. The check-gpu mode prints exactly one JSON object and returns
    without raising, whatever the GPU library does: when the probe goes
    through, the object reports the availability and the device name
    ([None] when no device is available); when the library is absent or
    any of its calls raises, the object has [available] false and an
    [error] field, and nothing is raised. *)
Theorem check_gpu_one_object (W : World) :
  (exists o, check_gpu W = ([Print o], Ok tt))
  /\ (import_torch W = Ok tt -> cuda_is_available W = Ok false ->
      check_gpu W = ([Print (gpu_report false VNone)], Ok tt))
  /\ (forall name,
      import_torch W = Ok tt -> cuda_is_available W = Ok true ->
      cuda_get_device_name W 0 = Ok name ->
      check_gpu W = ([Print (gpu_report true (VStr name))], Ok tt))
  /\ (forall e, probe_fails W e ->
      check_gpu W = ([Print (gpu_failure e)], Ok tt)
      /\ field (gpu_failure e) "available" = Some (VBool false)
      /\ field (gpu_failure e) "error"
         = Some (VStr (if is_ImportError e
                       then "torch not installed" else exn_str e)))
  /\ (forall msg, import_torch W = Raise (mkExn ImportError msg) ->
      check_gpu W = ([Print (VDict [("available", VBool false);
                                    ("error", VStr "torch not installed")])],
                     Ok tt)).
Proof.
  split; [| split; [| split; [| split]]].
  - destruct (probe_cases W) as [[Hi Ha] | [[name [Hi [Ha Hn]]] | [e He]]].
    + eexists. apply check_gpu_no_device; assumption.
    + eexists. apply (check_gpu_device W name); assumption.
    + eexists. apply check_gpu_failure. exact He.
  - apply check_gpu_no_device.
  - apply check_gpu_device.
  - intros e He. split; [now apply check_gpu_failure | split; reflexivity].
  - intros msg Hi.
    apply (check_gpu_failure W (mkExn ImportError msg)). now apply fails_import.
Qed.

Lemma check_gpu_one_object_witness :
  check_gpu Demo.gpu_box
  = ([Print (gpu_report true (VStr "NVIDIA RTX 4090"))], Ok tt)
  /\ check_gpu Demo.bare_box
     = ([Print (VDict [("available", VBool false);
                       ("error", VStr "torch not installed")])], Ok tt)
  /\ check_gpu Demo.offline_box
     = ([Print (gpu_report false VNone)], Ok tt).
Proof.
  split; [| split].
  - apply (proj1 (proj2 (proj2 (check_gpu_one_object Demo.gpu_box))));
      reflexivity.
  - apply (proj2 (proj2 (proj2 (proj2 (check_gpu_one_object Demo.bare_box))))
             "No module named 'torch'").
    reflexivity.
  - apply (proj1 (proj2 (check_gpu_one_object Demo.offline_box)));
      reflexivity.
Defined.

(** ** Model download *)

(** Without the hub library the only line printed is the error status. *)
Lemma download_without_hub_not_starting :
  fst (download_model Demo.bare_box Demo.model_name)
  = [Print (download_error (Demo.no_module "huggingface_hub"))]
  /\ ~ starts_with_starting Demo.bare_box Demo.model_name.
Proof.
  split; [reflexivity |].
  intros [rest H]. vm_compute in H. discriminate H.
Qed.

(** C5, amended.  The download mode never raises.  When the hub library can
    be imported it first prints the starting status naming the model, then
    the complete status with the downloaded path if the fetch returns, or
    the error status with the message if the fetch raises.  When the import
    itself raises, the error status with its message is the only line. *)
Theorem download_model_lines (W : World) (model_name : string) :
  snd (download_model W model_name) = Ok tt
  /\ (forall path,
      import_hub W = Ok tt -> snapshot_download W model_name = Ok path ->
      fst (download_model W model_name)
      = [Print (download_starting model_name); Print (download_complete path)])
  /\ (forall e,
      import_hub W = Ok tt -> snapshot_download W model_name = Raise e ->
      fst (download_model W model_name)
      = [Print (download_starting model_name); Print (download_error e)])
  /\ (forall e,
      import_hub W = Raise e ->
      fst (download_model W model_name) = [Print (download_error e)]).
Proof.
  unfold download_model, download_model_try.
  split; [| split; [| split]].
  - destruct (import_hub W) as [[] | e]; cbn; [| reflexivity].
    destruct (snapshot_download W model_name); reflexivity.
  - intros path Hi Hf. rewrite Hi. cbn. rewrite Hf. reflexivity.
  - intros e Hi Hf. rewrite Hi. cbn. rewrite Hf. reflexivity.
  - intros e Hi. rewrite Hi. reflexivity.
Qed.

Lemma download_model_lines_witness :
  fst (download_model Demo.gpu_box Demo.model_name)
  = [Print (download_starting Demo.model_name);
     Print (download_complete ("/cache/" ++ Demo.model_name)%string)]
  /\ fst (download_model Demo.offline_box Demo.model_name)
     = [Print (download_starting Demo.model_name);
        Print (download_error (mkExn OtherException "offline"))]
  /\ fst (download_model Demo.bare_box Demo.model_name)
     = [Print (download_error (Demo.no_module "huggingface_hub"))].
Proof.
  split; [| split].
  - apply (proj1 (proj2 (download_model_lines Demo.gpu_box Demo.model_name)));
      reflexivity.
  - apply (proj1 (proj2 (proj2
             (download_model_lines Demo.offline_box Demo.model_name))));
      reflexivity.
  - apply (proj2 (proj2 (proj2
             (download_model_lines Demo.bare_box Demo.model_name))));
      reflexivity.
Defined.

(** ** Blank lines *)

Lemma lstrip_whitespace_only (s : string) :
  whitespace_only s = true -> lstrip s = EmptyString.
Proof.
  induction s as [| c s IH]; cbn; [reflexivity |].
  intros H. apply andb_true_iff in H as [Hc Hs].
  rewrite Hc. now apply IH.
Qed.

Lemma whitespace_only_blank (line : string) :
  whitespace_only line = true -> blank line.
Proof.
  intros H. unfold blank, strip.
  now rewrite (lstrip_whitespace_only line H).
Qed.

Lemma rev_string_empty (s acc : string) :
  rev_string s acc = EmptyString -> s = EmptyString /\ acc = EmptyString.
Proof.
  revert acc. induction s as [| c s IH]; cbn; intros acc H.
  - now split.
  - apply IH in H as [_ H]. discriminate H.
Qed.

(** [lstrip] leaves nothing only when there was nothing but white space;
    for a reversed string, also when the accumulator is such. *)
Lemma lstrip_empty (s : string) :
  lstrip s = EmptyString -> whitespace_only s = true.
Proof.
  induction s as [| c s IH]; cbn; [reflexivity |].
  destruct (is_space c); [exact IH | discriminate].
Qed.

Lemma whitespace_only_rev (s acc : string) :
  whitespace_only (rev_string s acc) = true ->
  whitespace_only s = true /\ whitespace_only acc = true.
Proof.
  revert acc. induction s as [| c s IH]; cbn; intros acc H.
  - now split.
  - apply IH in H as [Hs Hacc]. cbn in Hacc.
    apply andb_true_iff in Hacc as [Hc Hacc].
    now rewrite Hc, Hs.
Qed.

Lemma lstrip_head (s : string) :
  lstrip s = EmptyString
  \/ exists c rest, lstrip s = String c rest /\ is_space c = false.
Proof.
  induction s as [| c s IH]; cbn; [now left |].
  destruct (is_space c) eqn:Hc; [exact IH |].
  right. now exists c, s.
Qed.

Lemma blank_whitespace_only (line : string) :
  blank line -> whitespace_only line = true.
Proof.
  unfold blank, strip, rstrip. intros H.
  destruct (rev_string (lstrip (rev_string (lstrip line) EmptyString))
              EmptyString) eqn:Hr; [| discriminate H].
  apply rev_string_empty in Hr as [Hr _].
  apply lstrip_empty, whitespace_only_rev in Hr as [Hl _].
  destruct (lstrip_head line) as [He | [c [rest [He Hc]]]].
  - now apply lstrip_empty.
  - rewrite He in Hl. cbn in Hl. rewrite Hc in Hl. discriminate Hl.
Qed.

(** ** One line of the server *)

Section Line.

Variable W : World.
Variable n : nat.
Variable line : string.

Lemma handle_line_blank :
  blank line -> handle_line W n line = ([], Ok Continue).
Proof.
  unfold blank, handle_line. intros H. now rewrite H.
Qed.

Lemma handle_line_try :
  truthy_str (strip line) = true ->
  handle_line W n line
  = try_except (handle_request W n line)
      (fun e => print (error_response e);;; ret Normal).
Proof.
  unfold handle_line. intros H. now rewrite H.
Qed.

(** The body of the [try] on a line that does not decode. *)
Lemma handle_request_malformed (e : exn) :
  loads W line = Raise e -> handle_request W n line = ([], Raise e).
Proof.
  unfold handle_request. intros H. now rewrite H.
Qed.

(** On a line that decodes to something else than an object. *)
Lemma handle_request_not_object (v : value) :
  loads W line = Ok v ->
  (forall d, v <> VDict d) ->
  handle_request W n line
  = ([], Raise (mkExn AttributeError
                  ("'" ++ type_name v ++ "' object has no attribute 'get'"))).
Proof.
  unfold handle_request. intros H Hv. rewrite H.
  destruct v; try reflexivity. now destruct (Hv d).
Qed.

(** On a line that decodes to an object: the body, flattened. *)
Lemma handle_request_object (d : list (string * value)) :
  loads W line = Ok (VDict d) ->
  handle_request W n line
  = let command := dict_get d "command" in
    let file_path := dict_get d "file_path" in
    let req_id := dict_get d "id" in
    if eq_str command "transcribe" then
      match os_path_exists W n file_path with
      | Raise e => ([], Raise e)
      | Ok false => ([Print (file_not_found req_id)], Ok Continue)
      | Ok true =>
          match model_transcribe W n [file_path] with
          | Raise e => ([Transcribe [file_path]], Raise e)
          | Ok ts =>
              ([Transcribe [file_path];
                Print (transcription (hd ""%string ts) file_path req_id)],
               Ok Normal)
          end
      end
    else if eq_str command "ping" then ([Print pong], Ok Normal)
    else if eq_str command "exit" then ([], Ok Break)
    else ([], Ok Normal).
Proof.
  unfold handle_request. intros H. rewrite H. cbn.
  destruct (eq_str (dict_get d "command") "transcribe").
  - destruct (os_path_exists W n (dict_get d "file_path")) as [[] | e];
      cbn; try reflexivity.
    unfold service_transcribe. cbn.
    destruct (model_transcribe W n [dict_get d "file_path"]) as [[| t ts] | e];
      reflexivity.
  - destruct (eq_str (dict_get d "command") "ping"); [reflexivity |].
    destruct (eq_str (dict_get d "command") "exit"); reflexivity.
Qed.

End Line.

(** ** Requests and their command *)

Lemma eq_str_dict_get (d : list (string * value)) (key s : string) :
  eq_str (dict_get d key) s = true <-> assoc key d = Some (VStr s).
Proof.
  unfold dict_get.
  destruct (assoc key d) as [v |]; [| cbn; split; discriminate].
  destruct v; cbn; try (split; discriminate).
  rewrite String.eqb_eq. split; [now intros -> | now intros [= ->]].
Qed.

Lemma command_is_eq_str (W : World) (line cmd : string)
  (d : list (string * value)) :
  request W line d ->
  command_is W line cmd <-> eq_str (dict_get d "command") cmd = true.
Proof.
  intros Hr. rewrite eq_str_dict_get. split.
  - intros [d' [[_ Hl'] Hc]]. destruct Hr as [_ Hl].
    rewrite Hl in Hl'. now injection Hl' as ->.
  - intros Hc. now exists d.
Qed.

(** The three commands exclude one another. *)
Lemma eq_str_functional (v : value) (s t : string) :
  eq_str v s = true -> eq_str v t = true -> s = t.
Proof.
  destruct v; cbn; try discriminate.
  rewrite !String.eqb_eq. congruence.
Qed.

Lemma eq_str_other (v : value) (s t : string) :
  eq_str v s = true -> s <> t -> eq_str v t = false.
Proof.
  intros Hs Hne. destruct (eq_str v t) eqn:Ht; [| reflexivity].
  now destruct (Hne (eq_str_functional v s t Hs Ht)).
Qed.

(** ** Traces *)

Lemma printed_app (a b : list event) :
  printed (a ++ b) = printed a ++ printed b.
Proof.
  induction a as [| [l | o | fs] a IH]; cbn; [reflexivity | | |];
    now rewrite IH.
Qed.

Lemma lines_read_app (a b : list event) :
  lines_read (a ++ b) = lines_read a ++ lines_read b.
Proof.
  induction a as [| [l | o | fs] a IH]; cbn; [reflexivity | | |];
    now rewrite IH.
Qed.

(** ** Every line goes one of the seven ways *)

Lemma handle_line_cases (W : World) (n : nat) (line : string) :
  exists evs f,
    handle_line W n line = (evs, Ok f) /\ line_case W n line evs f.
Proof.
  destruct (truthy_str (strip line)) eqn:Hb.
  2: { exists [], Continue. split; [now apply handle_line_blank |].
       now apply case_blank. }
  rewrite (handle_line_try W n line Hb).
  destruct (loads W line) as [v | e] eqn:Hl.
  2: { rewrite (handle_request_malformed W n line e Hl). cbn.
       exists [Print (error_response e)], Normal. split; [reflexivity |].
       apply (case_raise W n line [] e); [| reflexivity | reflexivity].
       split; [exact Hb | now apply handle_request_malformed]. }
  assert (Hd : (exists d, v = VDict d) \/ (forall d, v <> VDict d)).
  { destruct v; try (right; discriminate). left. now exists d. }
  destruct Hd as [[d ->] | Hv].
  2: { rewrite (handle_request_not_object W n line v Hl Hv). cbn.
       eexists _, Normal. split; [reflexivity |].
       apply (case_raise W n line []); [| reflexivity | reflexivity].
       split; [exact Hb | now apply handle_request_not_object]. }
  assert (Hr : request W line d) by now split.
  pose proof (handle_request_object W n line d Hl) as Hq. cbn zeta in Hq.
  destruct (eq_str (dict_get d "command") "transcribe") eqn:Ht.
  - apply eq_str_dict_get in Ht.
    destruct (os_path_exists W n (dict_get d "file_path")) as [[] | e] eqn:He.
    + destruct (model_transcribe W n [dict_get d "file_path"])
        as [ts | e] eqn:Hm.
      * rewrite Hq. cbn. eexists _, Normal. split; [reflexivity |].
        now apply (case_result W n line d ts).
      * rewrite Hq. cbn. eexists _, Normal. split; [reflexivity |].
        apply (case_raise W n line [Transcribe [dict_get d "file_path"]] e);
          [| reflexivity | reflexivity].
        split; [exact Hb | exact Hq].
    + rewrite Hq. cbn. eexists _, Continue. split; [reflexivity |].
      now apply (case_not_found W n line d).
    + rewrite Hq. cbn. eexists _, Normal. split; [reflexivity |].
      apply (case_raise W n line [] e); [| reflexivity | reflexivity].
      split; [exact Hb | exact Hq].
  - destruct (eq_str (dict_get d "command") "ping") eqn:Hp.
    + rewrite Hq. cbn. eexists _, Normal. split; [reflexivity |].
      apply case_pong. now apply (command_is_eq_str W line "ping" d Hr).
    + destruct (eq_str (dict_get d "command") "exit") eqn:Hx.
      * rewrite Hq. cbn. eexists _, Break. split; [reflexivity |].
        apply case_exit. now apply (command_is_eq_str W line "exit" d Hr).
      * rewrite Hq. cbn. eexists _, Normal. split; [reflexivity |].
        apply (case_other W n line d Hr).
        unfold known_command. now rewrite Ht, Hp, Hx.
Qed.

Section LineCase.

Variable W : World.
Variable n : nat.
Variable line : string.
Variable evs : list event.
Variable f : flow.
Hypothesis Hcase : line_case W n line evs f.

Lemma line_case_responses : Forall response (printed evs).
Proof.
  destruct Hcase as [Hb | evs0 e Hr Hp Hl | d Hr Hc He | d ts Hr Hc He Hm
                    | Hc | Hc | d Hr Hk]; cbn; try constructor;
    try constructor.
  rewrite printed_app, Hp. cbn. constructor; constructor.
Qed.

Lemma line_case_no_read : lines_read evs = [].
Proof.
  destruct Hcase; cbn; try reflexivity.
  rewrite lines_read_app. now rewrite H1.
Qed.

Lemma line_case_at_most_one : length (printed evs) <= 1.
Proof.
  destruct Hcase; cbn; try lia.
  rewrite printed_app, H0. cbn. lia.
Qed.

Lemma line_case_break : f = Break -> command_is W line "exit".
Proof.
  destruct Hcase; try discriminate. now intros _.
Qed.

End LineCase.

(** ** The loop *)

Lemma server_loop_line (W : World) (n : nat) (line : string)
  (rest : list read_event) (evs : list event) (f : flow) :
  handle_line W n line = (evs, Ok f) ->
  server_loop W n (Line line :: rest)
  = match f with
    | Break => (Read line :: evs, Ok tt)
    | Normal | Continue =>
        (Read line :: evs ++ fst (server_loop W (S n) rest),
         snd (server_loop W (S n) rest))
    end.
Proof.
  intros H. cbn [server_loop]. unfold bind, emit. rewrite H.
  destruct f; cbn; try now destruct (server_loop W (S n) rest).
  now rewrite app_nil_r.
Qed.

Lemma handle_line_goes_on (W : World) (n : nat) (line : string)
  (evs : list event) (f : flow) :
  handle_line W n line = (evs, Ok f) -> f <> Break -> goes_on W n line evs.
Proof.
  intros H Hf rest. rewrite (server_loop_line W n line rest evs f H).
  destruct f; [reflexivity | reflexivity | now destruct Hf].
Qed.

(** The trace of the loop is empty or starts with a line read. *)
Lemma server_loop_head (W : World) (n : nat) (stdin : list read_event) :
  fst (server_loop W n stdin) = []
  \/ exists l tr, fst (server_loop W n stdin) = Read l :: tr.
Proof.
  destruct stdin as [| [line | e] rest]; [now left | | now left].
  right. destruct (handle_line_cases W n line) as [evs [f [H _]]].
  rewrite (server_loop_line W n line rest evs f H).
  destruct f; cbn; eauto.
Qed.

Lemma server_loop_responses (W : World) (stdin : list read_event) :
  forall n, Forall response (printed (fst (server_loop W n stdin))).
Proof.
  induction stdin as [| [line | e] rest IH]; intros n; try constructor.
  destruct (handle_line_cases W n line) as [evs [f [H Hc]]].
  rewrite (server_loop_line W n line rest evs f H).
  pose proof (line_case_responses W n line evs f Hc) as He.
  destruct f; cbn; try exact He;
    rewrite printed_app; apply Forall_app; split; auto.
Qed.

Lemma printed_before_read_app (a b : list event) :
  lines_read a = [] ->
  (b = [] \/ exists l tr, b = Read l :: tr) ->
  printed_before_read (a ++ b) = length (printed a).
Proof.
  intros Ha Hb. induction a as [| [l | o | fs] a IH]; cbn.
  - destruct Hb as [-> | [l [tr ->]]]; reflexivity.
  - discriminate Ha.
  - f_equal. now apply IH.
  - now apply IH.
Qed.

Lemma responses_per_line_app (a b : list event) :
  lines_read a = [] ->
  responses_per_line (a ++ b) = responses_per_line b.
Proof.
  intros Ha. induction a as [| [l | o | fs] a IH]; cbn;
    [reflexivity | discriminate Ha | now apply IH | now apply IH].
Qed.

(** The responses counted line by line are those of each line. *)
Lemma responses_per_line_loop (W : World) (n : nat) (line : string)
  (rest : list read_event) (evs : list event) (f : flow) :
  handle_line W n line = (evs, Ok f) ->
  line_case W n line evs f ->
  responses_per_line (fst (server_loop W n (Line line :: rest)))
  = length (printed evs)
    :: match f with
       | Break => []
       | Normal | Continue =>
           responses_per_line (fst (server_loop W (S n) rest))
       end.
Proof.
  intros H Hc. rewrite (server_loop_line W n line rest evs f H).
  pose proof (line_case_no_read W n line evs f Hc) as Hr.
  pose proof (server_loop_head W (S n) rest) as Hh.
  destruct f; cbn.
  - now rewrite (printed_before_read_app evs _ Hr Hh),
      (responses_per_line_app evs _ Hr).
  - now rewrite (printed_before_read_app evs _ Hr Hh),
      (responses_per_line_app evs _ Hr).
  - rewrite <- (app_nil_r evs) at 1 2.
    rewrite (printed_before_read_app evs [] Hr (or_introl eq_refl)),
      (responses_per_line_app evs [] Hr).
    reflexivity.
Qed.

Lemma server_loop_at_most_one (W : World) (stdin : list read_event) :
  forall n,
    Forall (fun k => k <= 1)
      (responses_per_line (fst (server_loop W n stdin))).
Proof.
  induction stdin as [| [line | e] rest IH]; intros n; try constructor.
  - destruct (handle_line_cases W n line) as [evs [f [H Hc]]].
    rewrite (responses_per_line_loop W n line rest evs f H Hc).
    constructor; [now apply (line_case_at_most_one W n line evs f) |].
    destruct f; auto.
Qed.

(** An exit request cuts the input: what follows it plays no part. *)
Lemma server_loop_exit (W : World) (line : string)
  (post : list read_event) :
  command_is W line "exit" ->
  forall n, server_loop W n (Line line :: post) = ([Read line], Ok tt).
Proof.
  intros [d [[Hb Hl] Hc]] n.
  assert (H : handle_line W n line = ([], Ok Break)).
  { rewrite (handle_line_try W n line Hb),
      (handle_request_object W n line d Hl). cbn zeta.
    apply eq_str_dict_get in Hc.
    rewrite (eq_str_other _ "exit" "transcribe" Hc),
      (eq_str_other _ "exit" "ping" Hc), Hc by discriminate.
    reflexivity. }
  now rewrite (server_loop_line W n line post [] Break H).
Qed.

Lemma server_loop_cut (W : World) (line : string)
  (pre post : list read_event) :
  command_is W line "exit" ->
  forall n,
    server_loop W n (pre ++ Line line :: post)
    = server_loop W n (pre ++ [Line line]).
Proof.
  intros Hx. induction pre as [| [l | e] pre IH]; intros n; cbn [app].
  - now rewrite !(server_loop_exit W line _ Hx).
  - destruct (handle_line_cases W n l) as [evs [f [H _]]].
    rewrite !(server_loop_line W n l _ evs f H), (IH (S n)). reflexivity.
  - reflexivity.
Qed.

(** ** Exceptions inside the loop *)

(** Before it raises, the body of the [try] has printed nothing. *)
Lemma handle_request_raises_quietly (W : World) (n : nat) (line : string)
  (evs : list event) (e : exn) :
  handle_request W n line = (evs, Raise e) ->
  printed evs = [] /\ lines_read evs = [].
Proof.
  destruct (loads W line) as [v | e0] eqn:Hl.
  2: { rewrite (handle_request_malformed W n line e0 Hl).
       intros [= <- _]. now split. }
  assert (Hd : (exists d, v = VDict d) \/ (forall d, v <> VDict d)).
  { destruct v; try (right; discriminate). left. now exists d. }
  destruct Hd as [[d ->] | Hv].
  2: { rewrite (handle_request_not_object W n line v Hl Hv).
       intros [= <- _]. now split. }
  rewrite (handle_request_object W n line d Hl). cbn zeta.
  destruct (eq_str (dict_get d "command") "transcribe").
  - destruct (os_path_exists W n (dict_get d "file_path")) as [[] | e1].
    + destruct (model_transcribe W n [dict_get d "file_path"]) as [ts | e2];
        [discriminate |].
      intros [= <- _]. now split.
    + discriminate.
    + intros [= <- _]. now split.
  - destruct (eq_str (dict_get d "command") "ping"); [discriminate |].
    destruct (eq_str (dict_get d "command") "exit"); discriminate.
Qed.

(** The inner handler: one error response, and the body ends normally. *)
Lemma handle_line_raise (W : World) (n : nat) (line : string)
  (evs : list event) (e : exn) :
  handling_raises W n line evs e ->
  handle_line W n line = (evs ++ [Print (error_response e)], Ok Normal).
Proof.
  intros [Hb Hq]. rewrite (handle_line_try W n line Hb), Hq. reflexivity.
Qed.

(** A transcribe request with no file path: [os.path.exists(None)]. *)
Lemma no_file_path_raises (W : World) (n : nat) (line : string)
  (d : list (string * value)) :
  request W line d ->
  assoc "command" d = Some (VStr "transcribe") ->
  assoc "file_path" d = None ->
  handling_raises W n line []
    (mkExn TypeError
       "stat: path should be string, bytes, os.PathLike or integer, not NoneType").
Proof.
  intros [Hb Hl] Hc Hp. split; [exact Hb |].
  rewrite (handle_request_object W n line d Hl). cbn zeta.
  apply eq_str_dict_get in Hc. rewrite Hc.
  unfold dict_get at 1. rewrite Hp. reflexivity.
Qed.

(** A transcribe request on which the model raises. *)
Lemma model_failure_raises (W : World) (n : nat) (line : string)
  (d : list (string * value)) (e : exn) :
  request W line d ->
  assoc "command" d = Some (VStr "transcribe") ->
  os_path_exists W n (dict_get d "file_path") = Ok true ->
  model_transcribe W n [dict_get d "file_path"] = Raise e ->
  handling_raises W n line [Transcribe [dict_get d "file_path"]] e.
Proof.
  intros [Hb Hl] Hc He Hm. split; [exact Hb |].
  rewrite (handle_request_object W n line d Hl). cbn zeta.
  apply eq_str_dict_get in Hc. now rewrite Hc, He, Hm.
Qed.

(** ** How the loop ends *)

Lemma server_loop_end (W : World) (stdin : list read_event) :
  forall n,
    (snd (server_loop W n stdin) = Ok tt
     /\ lines_read (fst (server_loop W n stdin)) = input_lines stdin)
    \/ (exists e,
         snd (server_loop W n stdin) = Raise e /\ In (ReadFails e) stdin)
    \/ (snd (server_loop W n stdin) = Ok tt
        /\ exists pre line post,
            stdin = pre ++ Line line :: post
            /\ command_is W line "exit"
            /\ lines_read (fst (server_loop W n stdin))
               = input_lines pre ++ [line]).
Proof.
  induction stdin as [| [l | e] rest IH]; intros n.
  - left. now split.
  - destruct (handle_line_cases W n l) as [evs [f [H Hc]]].
    rewrite (server_loop_line W n l rest evs f H).
    pose proof (line_case_no_read W n l evs f Hc) as Hr.
    assert (Hgo : f <> Break ->
              (snd (server_loop W (S n) rest) = Ok tt
               /\ l :: lines_read (evs ++ fst (server_loop W (S n) rest))
                  = input_lines (Line l :: rest))
              \/ (exists e,
                   snd (server_loop W (S n) rest) = Raise e
                   /\ In (ReadFails e) (Line l :: rest))
              \/ (snd (server_loop W (S n) rest) = Ok tt
                  /\ exists pre line post,
                      Line l :: rest = pre ++ Line line :: post
                      /\ command_is W line "exit"
                      /\ l :: lines_read
                                (evs ++ fst (server_loop W (S n) rest))
                         = input_lines pre ++ [line])).
    { intros _. rewrite lines_read_app, Hr. cbn [app].
      destruct (IH (S n)) as [[Ho Hl] | [[e [He Hi]] | [Ho Hx]]].
      - left. split; [exact Ho | cbn; now rewrite Hl].
      - right; left. exists e. split; [exact He | now right].
      - right; right. split; [exact Ho |].
        destruct Hx as [pre [line [post [-> [Hx Hl]]]]].
        exists (Line l :: pre), line, post. cbn. now rewrite Hl. }
    destruct f; cbn [fst snd lines_read].
    + apply Hgo. discriminate.
    + apply Hgo. discriminate.
    + right; right. split; [reflexivity |].
      exists [], l, rest. cbn. rewrite Hr.
      repeat split. now apply (line_case_break W n l evs Break Hc).
  - right; left. exists e. split; [reflexivity | now left].
Qed.

(** ** Start-up and the outer handler *)

Lemma NemotronService_init_silent (W : World) (model_name : string) :
  (exists service, NemotronService_init W model_name = ([], Ok service))
  \/ (exists e, NemotronService_init W model_name = ([], Raise e)).
Proof.
  unfold NemotronService_init.
  destruct (cuda_is_available W) as [a | e]; cbn; [| right; eauto].
  destruct (from_pretrained W model_name) as [[] | e]; cbn; [| right; eauto].
  destruct (model_freeze W) as [[] | e]; cbn; [| right; eauto].
  destruct (model_to W (if a then "cuda" else "cpu")%string) as [[] | e];
    cbn; [left | right]; eauto.
Qed.

(** What [serve] prints: the fatal response alone when start-up fails;
    otherwise the ready status, the trace of the loop, and the fatal
    response when the loop raised. *)
Lemma serve_cases (W : World) (model_name : string)
  (stdin : list read_event) :
  (exists e,
     NemotronService_init W model_name = ([], Raise e)
     /\ serve W model_name stdin = ([Print (fatal_response e)], Ok tt))
  \/ (exists service,
       NemotronService_init W model_name = ([], Ok service)
       /\ serve W model_name stdin
          = (Print (ready_status service)
               :: fst (server_loop W 0 stdin)
               ++ match snd (server_loop W 0 stdin) with
                  | Ok _ => []
                  | Raise e => [Print (fatal_response e)]
                  end,
             Ok tt)).
Proof.
  unfold serve.
  destruct (NemotronService_init_silent W model_name)
    as [[service Hi] | [e Hi]]; rewrite Hi; cbn.
  - right. exists service. split; [reflexivity |].
    destruct (server_loop W 0 stdin) as [tr [[] | e]]; cbn;
      [now rewrite app_nil_r | reflexivity].
  - left. exists e. now split.
Qed.

Lemma run_server_responses (W : World) (model_name : string)
  (stdin : list read_event) :
  Forall response (printed (fst (run_server W model_name stdin))).
Proof.
  unfold run_server.
  destruct (import_torch W) as [[] | e]; cbn.
  2: { destruct (is_ImportError e); cbn; repeat constructor. }
  destruct (import_nemo W) as [[] | e]; cbn.
  2: { destruct (is_ImportError e); cbn; repeat constructor. }
  destruct (serve_cases W model_name stdin)
    as [[e [_ Hs]] | [service [_ Hs]]]; rewrite Hs; cbn.
  - repeat constructor.
  - constructor; [constructor |].
    rewrite printed_app. apply Forall_app. split.
    + apply server_loop_responses.
    + destruct (snd (server_loop W 0 stdin)); cbn; repeat constructor.
Qed.

Lemma response_known_type (o : value) :
  response o -> known_type o = true.
Proof.
  intros []; reflexivity.
Qed.

(** Among the responses, an error with an id is the file-not-found one. *)
Lemma response_error_with_id (o : value) :
  response o ->
  field o "type" = Some (VStr "error") ->
  field o "id" <> None ->
  exists req_id, o = file_not_found req_id.
Proof.
  intros [| service | req_id | text file_path req_id | | e | e] Ht Hi;
    try discriminate Ht; try (now destruct Hi).
  now exists req_id.
Qed.

(** ** The commands *)

Section Commands.

Variable W : World.
Variable n : nat.
Variable line : string.

Lemma handle_line_ping :
  command_is W line "ping" ->
  handle_line W n line = ([Print pong], Ok Normal).
Proof.
  intros [d [[Hb Hl] Hc]].
  rewrite (handle_line_try W n line Hb),
    (handle_request_object W n line d Hl). cbn zeta.
  apply eq_str_dict_get in Hc.
  rewrite (eq_str_other _ "ping" "transcribe" Hc), Hc by discriminate.
  reflexivity.
Qed.

Lemma handle_line_exit :
  command_is W line "exit" -> handle_line W n line = ([], Ok Break).
Proof.
  intros [d [[Hb Hl] Hc]].
  rewrite (handle_line_try W n line Hb),
    (handle_request_object W n line d Hl). cbn zeta.
  apply eq_str_dict_get in Hc.
  rewrite (eq_str_other _ "exit" "transcribe" Hc),
    (eq_str_other _ "exit" "ping" Hc), Hc by discriminate.
  reflexivity.
Qed.

Lemma handle_line_unknown (d : list (string * value)) :
  request W line d ->
  known_command (dict_get d "command") = false ->
  handle_line W n line = ([], Ok Normal).
Proof.
  intros [Hb Hl] Hk.
  rewrite (handle_line_try W n line Hb),
    (handle_request_object W n line d Hl). cbn zeta.
  unfold known_command in Hk.
  apply orb_false_iff in Hk as [Hk Hx].
  apply orb_false_iff in Hk as [Ht Hp].
  now rewrite Ht, Hp, Hx.
Qed.

(** A transcribe request whose file is not there. *)
Lemma handle_line_not_found (d : list (string * value)) :
  request W line d ->
  assoc "command" d = Some (VStr "transcribe") ->
  os_path_exists W n (dict_get d "file_path") = Ok false ->
  handle_line W n line
  = ([Print (file_not_found (dict_get d "id"))], Ok Continue).
Proof.
  intros [Hb Hl] Hc He.
  rewrite (handle_line_try W n line Hb),
    (handle_request_object W n line d Hl). cbn zeta.
  apply eq_str_dict_get in Hc. now rewrite Hc, He.
Qed.

(** A transcribe request whose file is there and which the model takes. *)
Lemma handle_line_result (d : list (string * value)) (ts : list string) :
  request W line d ->
  assoc "command" d = Some (VStr "transcribe") ->
  os_path_exists W n (dict_get d "file_path") = Ok true ->
  model_transcribe W n [dict_get d "file_path"] = Ok ts ->
  handle_line W n line
  = ([Transcribe [dict_get d "file_path"];
      Print (transcription (hd ""%string ts) (dict_get d "file_path")
               (dict_get d "id"))],
     Ok Normal).
Proof.
  intros [Hb Hl] Hc He Hm.
  rewrite (handle_line_try W n line Hb),
    (handle_request_object W n line d Hl). cbn zeta.
  apply eq_str_dict_get in Hc. now rewrite Hc, He, Hm.
Qed.

(** Whatever the file system and the model do on a transcribe request,
    one object is printed. *)
Lemma handle_line_transcribe :
  command_is W line "transcribe" ->
  length (printed (fst (handle_line W n line))) = 1.
Proof.
  intros [d [Hr Hc]].
  destruct (os_path_exists W n (dict_get d "file_path")) as [[] | e] eqn:He.
  - destruct (model_transcribe W n [dict_get d "file_path"]) as [ts | e]
      eqn:Hm.
    + now rewrite (handle_line_result d ts Hr Hc He Hm).
    + now rewrite (handle_line_raise W n line _ e
                     (model_failure_raises W n line d e Hr Hc He Hm)).
  - now rewrite (handle_line_not_found d Hr Hc He).
  - assert (Hq : handling_raises W n line [] e).
    { destruct Hr as [Hb Hl]. split; [exact Hb |].
      rewrite (handle_request_object W n line d Hl). cbn zeta.
      apply eq_str_dict_get in Hc. now rewrite Hc, He. }
    now rewrite (handle_line_raise W n line [] e Hq).
Qed.

End Commands.

(** ** The protocol of the server *)

(** A blank line is read and gets no response, so much for exactly one
    response per line. *)
Lemma blank_line_gets_no_response :
  responses_per_line (fst (server_loop Demo.gpu_box 0 [Line Demo.blank_line]))
  = [0]
  /\ ~ one_response_per_line Demo.gpu_box [Line Demo.blank_line].
Proof.
  split; [reflexivity |].
  unfold one_response_per_line. intros H.
  vm_compute in H. inversion H as [| k ks Hk _]. discriminate Hk.
Qed.

(** C1, amended.  In server mode every line read from standard input
    produces at most one JSON response line, printed before the next line
    is read.  It produces exactly one when the line is a transcribe or a
    ping request or when its handling raises an exception; it produces
    none when the line is blank, is an exit request, or is an object whose
    command is none of the three. *)
Theorem at_most_one_response_per_line (W : World) (n : nat) (line : string) :
  (forall stdin,
     Forall (fun k => k <= 1)
       (responses_per_line (fst (server_loop W n stdin))))
  /\ (forall rest,
      hd_error (responses_per_line
                  (fst (server_loop W n (Line line :: rest))))
      = Some (length (printed (fst (handle_line W n line)))))
  /\ (command_is W line "transcribe" ->
      length (printed (fst (handle_line W n line))) = 1)
  /\ (command_is W line "ping" ->
      length (printed (fst (handle_line W n line))) = 1)
  /\ (forall evs e,
      handling_raises W n line evs e ->
      length (printed (fst (handle_line W n line))) = 1)
  /\ (blank line ->
      length (printed (fst (handle_line W n line))) = 0)
  /\ (command_is W line "exit" ->
      length (printed (fst (handle_line W n line))) = 0)
  /\ (forall d,
      request W line d ->
      known_command (dict_get d "command") = false ->
      length (printed (fst (handle_line W n line))) = 0).
Proof.
  repeat split.
  - intros stdin. apply server_loop_at_most_one.
  - intros rest. destruct (handle_line_cases W n line) as [evs [f [H Hc]]].
    rewrite (responses_per_line_loop W n line rest evs f H Hc), H.
    reflexivity.
  - apply handle_line_transcribe.
  - intros Hc. now rewrite (handle_line_ping W n line Hc).
  - intros evs e Hq. rewrite (handle_line_raise W n line evs e Hq).
    destruct Hq as [_ Hq].
    apply handle_request_raises_quietly in Hq as [Hp _].
    cbn [fst]. rewrite printed_app, Hp. reflexivity.
  - intros Hb. now rewrite (handle_line_blank W n line Hb).
  - intros Hc. now rewrite (handle_line_exit W n line Hc).
  - intros d Hr Hk. now rewrite (handle_line_unknown W n line d Hr Hk).
Qed.

Lemma at_most_one_response_per_line_witness :
  length (printed (fst (handle_line Demo.gpu_box 0 Demo.speech_line))) = 1
  /\ length (printed (fst (handle_line Demo.gpu_box 0 Demo.garbage_line))) = 1
  /\ length (printed (fst (handle_line Demo.gpu_box 0 Demo.blank_line))) = 0
  /\ length (printed (fst (handle_line Demo.gpu_box 0 Demo.reload_line))) = 0.
Proof.
  pose proof (at_most_one_response_per_line Demo.gpu_box 0 Demo.speech_line)
    as [_ [_ [Hs _]]].
  pose proof (at_most_one_response_per_line Demo.gpu_box 0 Demo.garbage_line)
    as [_ [_ [_ [_ [Hg _]]]]].
  pose proof (at_most_one_response_per_line Demo.gpu_box 0 Demo.blank_line)
    as [_ [_ [_ [_ [_ [Hb _]]]]]].
  pose proof (at_most_one_response_per_line Demo.gpu_box 0 Demo.reload_line)
    as [_ [_ [_ [_ [_ [_ [_ Hr]]]]]]].
  split; [| split; [| split]].
  - apply Hs.
    exists [("command", VStr "transcribe"); ("file_path", VStr "speech.wav");
            ("id", VInt 7)].
    repeat split; reflexivity.
  - apply (Hg [] (mkExn ValueError "Expecting value: line 1 column 1 (char 0)")).
    split; reflexivity.
  - apply Hb. reflexivity.
  - apply (Hr [("command", VStr "reload")]); [split |]; reflexivity.
Defined.

(** A transcribe request without a file path is answered, but the answer
    does not carry the id of the request. *)
Lemma no_file_path_answer_has_no_id :
  handle_line Demo.gpu_box 0 Demo.no_path_line
  = ([Print (error_response
               (mkExn TypeError
                  "stat: path should be string, bytes, os.PathLike or integer, not NoneType"))],
     Ok Normal)
  /\ ~ missing_file_answer Demo.gpu_box 0 Demo.no_path_line.
Proof.
  split; [reflexivity |].
  intros H.
  destruct (H [("command", VStr "transcribe"); ("id", VInt 9)])
    as [o [_ [Hid Hgo]]].
  - split; reflexivity.
  - reflexivity.
  - left. reflexivity.
  - specialize (Hgo []). vm_compute in Hgo.
    injection Hgo as Ho. subst o. discriminate Hid.
Qed.

(** C2, amended.  For every transcribe request whose file path does not
    refer to an existing file ([os.path.exists] answers false), the server
    prints the error response [File not found] carrying the id of the
    request, does not call the model, and the loop goes on.  When the
    request has no file path at all, [os.path.exists] raises: the server
    prints an error response without the id, does not call the model, and
    the loop goes on. *)
Theorem missing_file_answers (W : World) (n : nat) (line : string)
  (d : list (string * value)) :
  request W line d ->
  assoc "command" d = Some (VStr "transcribe") ->
  (os_path_exists W n (dict_get d "file_path") = Ok false ->
   goes_on W n line [Print (file_not_found (dict_get d "id"))]
   /\ field (file_not_found (dict_get d "id")) "type" = Some (VStr "error")
   /\ field (file_not_found (dict_get d "id")) "id" = Some (dict_get d "id")
   /\ model_calls [Print (file_not_found (dict_get d "id"))] = [])
  /\ (assoc "file_path" d = None ->
      exists e,
        goes_on W n line [Print (error_response e)]
        /\ exn_cls e = TypeError
        /\ field (error_response e) "type" = Some (VStr "error")
        /\ field (error_response e) "id" = None
        /\ model_calls [Print (error_response e)] = []).
Proof.
  intros Hr Hc. split.
  - intros He. repeat split.
    apply (handle_line_goes_on W n line _ Continue);
      [now apply handle_line_not_found | discriminate].
  - intros Hp. eexists. repeat split.
    + apply (handle_line_goes_on W n line _ Normal); [| discriminate].
      apply (handle_line_raise W n line []).
      now apply (no_file_path_raises W n line d).
    + reflexivity.
Qed.

Lemma missing_file_answers_witness :
  goes_on Demo.gpu_box 0 Demo.gone_line [Print (file_not_found (VInt 8))]
  /\ exists e,
      goes_on Demo.gpu_box 0 Demo.no_path_line [Print (error_response e)]
      /\ field (error_response e) "id" = None.
Proof.
  split.
  - apply (missing_file_answers Demo.gpu_box 0 Demo.gone_line
             [("command", VStr "transcribe"); ("file_path", VStr "gone.wav");
              ("id", VInt 8)]);
      [split | |]; reflexivity.
  - destruct (proj2 (missing_file_answers Demo.gpu_box 0 Demo.no_path_line
                       [("command", VStr "transcribe"); ("id", VInt 9)]
                       (conj eq_refl eq_refl) eq_refl) eq_refl)
      as [e [Hgo [_ [_ [Hid _]]]]].
    exists e. split; assumption.
Defined.

(** C3.  For every input line whose handling raises an exception (a line
    that is not valid JSON among them: the decoder raises on it once the
    line has passed the guard against blank lines), the server catches the
    exception, prints one error response, and goes on reading the next
    line.  The loop ends before the end of the input only on an exit
    command or on a fatal failure: on any input it either has read every
    line, or has raised because reading a line failed, or has stopped at an
    exit request; an exception that leaves the loop is reported by the
    outer handler as a fatal response. *)
Theorem exceptions_do_not_stop_loop (W : World) (n : nat) :
  (forall line evs e,
     handling_raises W n line evs e ->
     goes_on W n line (evs ++ [Print (error_response e)])
     /\ printed (evs ++ [Print (error_response e)]) = [error_response e])
  /\ (forall line e,
      ~ blank line -> loads W line = Raise e ->
      goes_on W n line [Print (error_response e)])
  /\ (forall stdin,
      (snd (server_loop W n stdin) = Ok tt
       /\ lines_read (fst (server_loop W n stdin)) = input_lines stdin)
      \/ (exists e,
           snd (server_loop W n stdin) = Raise e /\ In (ReadFails e) stdin)
      \/ (snd (server_loop W n stdin) = Ok tt
          /\ exists pre line post,
              stdin = pre ++ Line line :: post
              /\ command_is W line "exit"
              /\ lines_read (fst (server_loop W n stdin))
                 = input_lines pre ++ [line]))
  /\ (forall model_name stdin service e,
      import_torch W = Ok tt -> import_nemo W = Ok tt ->
      NemotronService_init W model_name = ([], Ok service) ->
      snd (server_loop W 0 stdin) = Raise e ->
      run_server W model_name stdin
      = (Print (ready_status service)
           :: fst (server_loop W 0 stdin) ++ [Print (fatal_response e)],
         Returned)).
Proof.
  split; [| split; [| split]].
  - intros line evs e Hq. split.
    + apply (handle_line_goes_on W n line _ Normal);
        [now apply handle_line_raise | discriminate].
    + destruct Hq as [_ Hq].
      apply handle_request_raises_quietly in Hq as [Hp _].
      now rewrite printed_app, Hp.
  - intros line e Hb Hl.
    apply (handle_line_goes_on W n line _ Normal); [| discriminate].
    apply (handle_line_raise W n line [] e). split.
    + unfold blank in Hb. now destruct (truthy_str (strip line)).
    + now apply handle_request_malformed.
  - intros stdin. apply server_loop_end.
  - intros model_name stdin service e Ht Hn Hi He.
    unfold run_server. rewrite Ht, Hn. cbn.
    destruct (serve_cases W model_name stdin)
      as [[e' [Hi' _]] | [service' [Hi' Hs]]]; rewrite Hi in Hi'.
    + discriminate Hi'.
    + injection Hi' as <-. now rewrite Hs, He.
Qed.

Lemma exceptions_do_not_stop_loop_witness :
  goes_on Demo.gpu_box 0 Demo.garbage_line
    [Print (error_response
              (mkExn ValueError "Expecting value: line 1 column 1 (char 0)"))]
  /\ goes_on Demo.gpu_box 0 Demo.noise_line
       ([Transcribe [VStr "noise.wav"]]
        ++ [Print (error_response
                     (mkExn OtherException "unsupported audio format"))]).
Proof.
  split.
  - apply (proj1 (proj2 (exceptions_do_not_stop_loop Demo.gpu_box 0))
             Demo.garbage_line).
    + unfold blank. vm_compute. discriminate.
    + reflexivity.
  - apply (proj1 (exceptions_do_not_stop_loop Demo.gpu_box 0)
             Demo.noise_line).
    split; reflexivity.
Defined.

(** C6.  Every JSON object printed by the server mode has a [type] field
    whose value is one of [status], [result], [error], [fatal] and
    [pong]. *)
Theorem responses_have_known_type (W : World) (model_name : string)
  (stdin : list read_event) :
  Forall (fun o => known_type o = true)
    (printed (fst (run_server W model_name stdin))).
Proof.
  apply (Forall_impl _ response_known_type), run_server_responses.
Qed.

(** C7.  Reading a request whose command field is [exit] ends the loop of
    the server: the loop stops with the line just read, and what stands
    after it in the input changes nothing to the run. *)
Theorem exit_ends_the_loop (W : World) (line : string) :
  command_is W line "exit" ->
  (forall n post, server_loop W n (Line line :: post) = ([Read line], Ok tt))
  /\ (forall n pre post,
      server_loop W n (pre ++ Line line :: post)
      = server_loop W n (pre ++ [Line line]))
  /\ (forall model_name pre post,
      run_server W model_name (pre ++ Line line :: post)
      = run_server W model_name (pre ++ [Line line])).
Proof.
  intros Hx. split; [| split].
  - intros n post. now apply server_loop_exit.
  - intros n pre post. now apply server_loop_cut.
  - intros model_name pre post. unfold run_server, serve.
    now rewrite (server_loop_cut W line pre post Hx 0).
Qed.

Lemma exit_ends_the_loop_witness :
  run_server Demo.gpu_box Demo.model_name
    ([Line Demo.ping_line] ++ Line Demo.exit_line :: [Line Demo.speech_line])
  = run_server Demo.gpu_box Demo.model_name
      ([Line Demo.ping_line] ++ [Line Demo.exit_line]).
Proof.
  apply (exit_ends_the_loop Demo.gpu_box Demo.exit_line).
  exists [("command", VStr "exit")]. repeat split; reflexivity.
Defined.

(** C8.  Every request whose command field is [ping] yields exactly one
    response, of type [pong], and the loop goes on afterwards. *)
Theorem ping_yields_pong (W : World) (n : nat) (line : string) :
  command_is W line "ping" ->
  handle_line W n line = ([Print pong], Ok Normal)
  /\ field pong "type" = Some (VStr "pong")
  /\ goes_on W n line [Print pong].
Proof.
  intros Hp. pose proof (handle_line_ping W n line Hp) as H.
  repeat split; [exact H |].
  apply (handle_line_goes_on W n line _ Normal H). discriminate.
Qed.

Lemma ping_yields_pong_witness :
  handle_line Demo.gpu_box 4 Demo.ping_line = ([Print pong], Ok Normal)
  /\ field pong "type" = Some (VStr "pong")
  /\ goes_on Demo.gpu_box 4 Demo.ping_line [Print pong].
Proof.
  apply ping_yields_pong.
  exists [("command", VStr "ping")]. repeat split; reflexivity.
Defined.

(** A line that decodes to a JSON value without any command field, the
    empty array, is answered by an error response. *)
Lemma array_line_gets_error :
  printed (fst (handle_line Demo.gpu_box 0 Demo.array_line))
  = [error_response
       (mkExn AttributeError "'list' object has no attribute 'get'")]
  /\ ~ unknown_is_silent Demo.gpu_box 0 Demo.array_line.
Proof.
  split; [reflexivity |].
  intros H. specialize (H (VList []) eq_refl I). discriminate H.
Qed.

(** C9, amended.  A line that decodes to a JSON object whose command field
    is absent or is none of [transcribe], [ping] and [exit], and likewise
    a blank or white-space-only line, produces no response at all: the
    server goes on to the next line.  A line that decodes to a JSON value
    that is no object is answered by one error response. *)
Theorem unknown_command_is_silent (W : World) (n : nat) (line : string) :
  (forall d,
     request W line d ->
     match assoc "command" d with
     | None => True
     | Some c => known_command c = false
     end ->
     handle_line W n line = ([], Ok Normal) /\ goes_on W n line [])
  /\ (whitespace_only line = true ->
      handle_line W n line = ([], Ok Continue) /\ goes_on W n line [])
  /\ (blank line <-> whitespace_only line = true)
  /\ (forall v,
      ~ blank line -> loads W line = Ok v -> (forall d, v <> VDict d) ->
      exists e,
        handle_line W n line = ([Print (error_response e)], Ok Normal)
        /\ exn_cls e = AttributeError).
Proof.
  split; [| split; [| split]].
  - intros d Hr Hc.
    assert (H : handle_line W n line = ([], Ok Normal)).
    { apply (handle_line_unknown W n line d Hr).
      unfold dict_get. now destruct (assoc "command" d). }
    split; [exact H |].
    apply (handle_line_goes_on W n line _ Normal H). discriminate.
  - intros Hw.
    pose proof (handle_line_blank W n line (whitespace_only_blank line Hw))
      as H.
    split; [exact H |].
    apply (handle_line_goes_on W n line _ Continue H). discriminate.
  - split; [apply blank_whitespace_only | apply whitespace_only_blank].
  - intros v Hb Hl Hv. eexists. split.
    + apply (handle_line_raise W n line []). split.
      * unfold blank in Hb. now destruct (truthy_str (strip line)).
      * exact (handle_request_not_object W n line v Hl Hv).
    + reflexivity.
Qed.

Lemma unknown_command_is_silent_witness :
  handle_line Demo.gpu_box 0 Demo.reload_line = ([], Ok Normal)
  /\ handle_line Demo.gpu_box 0 Demo.no_command_line = ([], Ok Normal)
  /\ handle_line Demo.gpu_box 0 Demo.blank_line = ([], Ok Continue).
Proof.
  split; [| split].
  - apply (proj1 (unknown_command_is_silent Demo.gpu_box 0 Demo.reload_line)
             [("command", VStr "reload")]);
      [split |]; reflexivity.
  - apply (proj1 (unknown_command_is_silent Demo.gpu_box 0
                    Demo.no_command_line)
             [("id", VInt 3)]);
      [split; reflexivity | exact I].
  - apply (proj1 (proj2 (unknown_command_is_silent Demo.gpu_box 0
                           Demo.blank_line))).
    reflexivity.
Defined.

(** C10.  The error responses printed by the handler of the inner [try]
    (for malformed JSON, for a failure of the transcription, for a
    transcribe request without a [file_path] field) have the fields [type]
    and [message] only, and so no [id]; among all the objects the server
    prints, an error response that has an [id] field is the file-not-found
    response. *)
Theorem handler_errors_have_no_id (W : World) (n : nat) (line : string) :
  (forall evs e,
     handling_raises W n line evs e ->
     handle_line W n line = (evs ++ [Print (error_response e)], Ok Normal)
     /\ printed (evs ++ [Print (error_response e)]) = [error_response e]
     /\ fields (error_response e) = ["type"; "message"]%string
     /\ field (error_response e) "id" = None)
  /\ (forall e,
      ~ blank line -> loads W line = Raise e ->
      handling_raises W n line [] e)
  /\ (forall d e,
      request W line d ->
      assoc "command" d = Some (VStr "transcribe") ->
      os_path_exists W n (dict_get d "file_path") = Ok true ->
      model_transcribe W n [dict_get d "file_path"] = Raise e ->
      handling_raises W n line [Transcribe [dict_get d "file_path"]] e)
  /\ (forall d,
      request W line d ->
      assoc "command" d = Some (VStr "transcribe") ->
      assoc "file_path" d = None ->
      exists e, handling_raises W n line [] e)
  /\ (forall model_name stdin o,
      In o (printed (fst (run_server W model_name stdin))) ->
      field o "type" = Some (VStr "error") ->
      field o "id" <> None ->
      exists req_id, o = file_not_found req_id).
Proof.
  split; [| split; [| split; [| split]]].
  - intros evs e Hq. split; [now apply handle_line_raise |].
    destruct Hq as [_ Hq].
    apply handle_request_raises_quietly in Hq as [Hp _].
    rewrite printed_app, Hp. repeat split.
  - intros e Hb Hl. split.
    + unfold blank in Hb. now destruct (truthy_str (strip line)).
    + now apply handle_request_malformed.
  - intros d e. apply model_failure_raises.
  - intros d Hr Hc Hp. eexists.
    now apply (no_file_path_raises W n line d).
  - intros model_name stdin o Hin.
    apply response_error_with_id.
    pose proof (run_server_responses W model_name stdin) as Hall.
    rewrite Forall_forall in Hall. now apply Hall.
Qed.

Lemma handler_errors_have_no_id_witness :
  handle_line Demo.gpu_box 0 Demo.noise_line
  = ([Transcribe [VStr "noise.wav"]]
     ++ [Print (error_response
                  (mkExn OtherException "unsupported audio format"))],
     Ok Normal)
  /\ handling_raises Demo.gpu_box 0 Demo.garbage_line []
       (mkExn ValueError "Expecting value: line 1 column 1 (char 0)")
  /\ exists e, handling_raises Demo.gpu_box 0 Demo.no_path_line [] e.
Proof.
  split; [| split].
  - apply (proj1 (handler_errors_have_no_id Demo.gpu_box 0 Demo.noise_line)).
    split; reflexivity.
  - apply (proj1 (proj2 (handler_errors_have_no_id Demo.gpu_box 0
                           Demo.garbage_line))).
    + unfold blank. vm_compute. discriminate.
    + reflexivity.
  - apply (proj1 (proj2 (proj2 (proj2
             (handler_errors_have_no_id Demo.gpu_box 0 Demo.no_path_line))))
             [("command", VStr "transcribe"); ("id", VInt 9)]);
      [split | |]; reflexivity.
Defined.

(** ** Start-up of the server *)

Lemma NemotronService_init_fails (W : World) (model_name : string) (e : exn) :
  startup_fails W model_name e ->
  NemotronService_init W model_name = ([], Raise e).
Proof.
  unfold NemotronService_init.
  intros [Hq | a Hq Hl | a Hq Hl Hf | a Hq Hl Hf Hm]; rewrite Hq; cbn;
    try reflexivity; rewrite Hl; cbn; try reflexivity;
    rewrite Hf; cbn; try reflexivity; rewrite Hm; reflexivity.
Qed.

Lemma NemotronService_init_succeeds (W : World) (model_name : string)
  (available : bool) :
  startup_succeeds W model_name available ->
  NemotronService_init W model_name
  = ([], Ok {| device := if available then "cuda" else "cpu" |}).
Proof.
  unfold NemotronService_init. intros [Hq [Hl [Hf Hm]]].
  rewrite Hq. cbn. rewrite Hl. cbn. rewrite Hf. cbn. rewrite Hm. reflexivity.
Qed.

Lemma run_server_imported (W : World) (model_name : string)
  (stdin : list read_event) :
  imports_succeed W ->
  run_server W model_name stdin = (fst (serve W model_name stdin), Returned).
Proof.
  intros [Ht Hn]. unfold run_server. rewrite Ht, Hn. cbn.
  destruct (serve_cases W model_name stdin)
    as [[e [_ Hs]] | [service [_ Hs]]]; now rewrite Hs.
Qed.

Lemma line_case_loop_responses (W : World) (n : nat) (line : string)
  (evs : list event) (f : flow) :
  line_case W n line evs f -> Forall loop_response (printed evs).
Proof.
  intros [Hb | evs0 e Hr Hp Hl | d Hr Hc He | d ts Hr Hc He Hm
         | Hc | Hc | d Hr Hk]; cbn; try constructor; try constructor.
  rewrite printed_app, Hp. cbn. constructor; constructor.
Qed.

Lemma server_loop_loop_responses (W : World) (stdin : list read_event) :
  forall n, Forall loop_response (printed (fst (server_loop W n stdin))).
Proof.
  induction stdin as [| [line | e] rest IH]; intros n; try constructor.
  destruct (handle_line_cases W n line) as [evs [f [H Hc]]].
  rewrite (server_loop_line W n line rest evs f H).
  pose proof (line_case_loop_responses W n line evs f Hc) as He.
  destruct f; cbn; try exact He;
    rewrite printed_app; apply Forall_app; split; auto.
Qed.

Lemma loop_response_type (o : value) :
  loop_response o ->
  ~ has_type o "status" /\ ~ has_type o "fatal".
Proof.
  intros []; split; discriminate.
Qed.

(** X1.  The imports of the server mode decide before anything else.  When
    importing torch or NeMo raises an [ImportError], the server prints the
    single error response [NeMo/Torch not installed] and leaves with
    [sys.exit(1)]; when it raises any other exception, nothing is printed
    and the exception leaves [run_server].  In both cases no line of the
    input is read and the model is not called, whatever the input. *)
Theorem server_import_failure (W : World) (model_name : string)
  (stdin : list read_event) (e : exn) :
  import_fails W e ->
  run_server W model_name stdin
  = (if is_ImportError e
     then ([Print not_installed], SysExit 1)
     else ([], Uncaught e))
  /\ lines_read (fst (run_server W model_name stdin)) = []
  /\ model_calls (fst (run_server W model_name stdin)) = [].
Proof.
  intros He.
  assert (H : run_server W model_name stdin
              = (if is_ImportError e
                 then ([Print not_installed], SysExit 1)
                 else ([], Uncaught e))).
  { unfold run_server. destruct He as [Ht | Ht Hn].
    - rewrite Ht. reflexivity.
    - rewrite Ht, Hn. reflexivity. }
  rewrite H. split; [reflexivity |].
  destruct (is_ImportError e); split; reflexivity.
Qed.

Lemma server_import_failure_witness :
  run_server Demo.bare_box Demo.model_name [Line Demo.ping_line]
  = ([Print not_installed], SysExit 1).
Proof.
  apply (server_import_failure Demo.bare_box Demo.model_name
           [Line Demo.ping_line] (Demo.no_module "torch")).
  apply fails_torch. reflexivity.
Defined.

(** X2.  When the imports succeed and the constructor of the service
    raises (at the availability query, when loading, freezing or moving
    the model), the server prints the fatal response with the message of
    the exception and nothing else: no ready status, no line read; and
    [run_server] returns normally. *)
Theorem startup_failure_is_fatal (W : World) (model_name : string)
  (stdin : list read_event) (e : exn) :
  imports_succeed W ->
  startup_fails W model_name e ->
  run_server W model_name stdin = ([Print (fatal_response e)], Returned).
Proof.
  intros Hi He. rewrite (run_server_imported W model_name stdin Hi).
  destruct (serve_cases W model_name stdin)
    as [[e' [Hf Hs]] | [service [Hf Hs]]];
    rewrite (NemotronService_init_fails W model_name e He) in Hf.
  - injection Hf as <-. now rewrite Hs.
  - discriminate Hf.
Qed.

Lemma startup_failure_is_fatal_witness :
  run_server Demo.offline_box Demo.model_name [Line Demo.ping_line]
  = ([Print (fatal_response (mkExn OtherException "offline"))], Returned).
Proof.
  apply startup_failure_is_fatal.
  - split; reflexivity.
  - apply (fails_load _ _ _ false); reflexivity.
Defined.

(** X3.  When the imports and the constructor of the service succeed, the
    first object the server prints is the ready status, whose device is
    [cuda] when CUDA is available and [cpu] otherwise; it is printed before
    any line is read, and no other object of type [status] follows. *)
Theorem ready_status_comes_first (W : World) (model_name : string)
  (stdin : list read_event) (available : bool) :
  imports_succeed W ->
  startup_succeeds W model_name available ->
  exists tr,
    fst (run_server W model_name stdin)
    = Print (VDict [("type", VStr "status"); ("status", VStr "ready");
                    ("device", VStr (if available then "cuda" else "cpu"))])
        :: tr
    /\ Forall (fun o => ~ has_type o "status") (printed tr).
Proof.
  intros Hi Hs. rewrite (run_server_imported W model_name stdin Hi).
  destruct (serve_cases W model_name stdin)
    as [[e [Hf Hv]] | [service [Hf Hv]]];
    rewrite (NemotronService_init_succeeds W model_name available Hs) in Hf.
  - discriminate Hf.
  - injection Hf as <-. rewrite Hv. cbn [fst]. eexists. split; [reflexivity |].
    rewrite printed_app. apply Forall_app. split.
    + apply (Forall_impl _ (fun o H => proj1 (loop_response_type o H))).
      apply server_loop_loop_responses.
    + destruct (snd (server_loop W 0 stdin)); cbn; constructor;
        [discriminate | constructor].
Qed.

Lemma ready_status_comes_first_witness :
  exists tr,
    fst (run_server Demo.gpu_box Demo.model_name [Line Demo.ping_line])
    = Print (VDict [("type", VStr "status"); ("status", VStr "ready");
                    ("device", VStr "cuda")]) :: tr
    /\ Forall (fun o => ~ has_type o "status") (printed tr).
Proof.
  apply (ready_status_comes_first Demo.gpu_box Demo.model_name
           [Line Demo.ping_line] true).
  - split; reflexivity.
  - repeat split; reflexivity.
Defined.

(** X4.  Once the imports have succeeded the server mode never lets an
    exception out and never exits: [run_server] returns.  The objects
    printed are the ready status or nothing, then responses of the loop,
    then at most one fatal response, which is the last object printed. *)
Theorem server_returns_fatal_last (W : World) (model_name : string)
  (stdin : list read_event) :
  imports_succeed W ->
  snd (run_server W model_name stdin) = Returned
  /\ exists first body last,
      printed (fst (run_server W model_name stdin)) = first ++ body ++ last
      /\ (first = [] \/ exists service, first = [ready_status service])
      /\ Forall loop_response body
      /\ (last = [] \/ exists e, last = [fatal_response e]).
Proof.
  intros Hi. rewrite (run_server_imported W model_name stdin Hi).
  split; [reflexivity |]. cbn [fst].
  destruct (serve_cases W model_name stdin)
    as [[e [_ Hs]] | [service [_ Hs]]]; rewrite Hs; cbn [fst].
  - exists [], [], [fatal_response e].
    split; [reflexivity |]. split; [now left |].
    split; [constructor | right; now exists e].
  - exists [ready_status service],
      (printed (fst (server_loop W 0 stdin))),
      (match snd (server_loop W 0 stdin) with
       | Ok _ => []
       | Raise e => [fatal_response e]
       end).
    split; [| split; [| split]].
    + cbn. rewrite printed_app.
      now destruct (snd (server_loop W 0 stdin)).
    + right. now exists service.
    + apply server_loop_loop_responses.
    + destruct (snd (server_loop W 0 stdin)) as [u | e];
        [now left | right; now exists e].
Qed.

Lemma server_returns_fatal_last_witness :
  snd (run_server Demo.gpu_box Demo.model_name
         [Line Demo.garbage_line;
          ReadFails (mkExn ValueError "invalid start byte")])
  = Returned.
Proof.
  apply (server_returns_fatal_last Demo.gpu_box Demo.model_name).
  split; reflexivity.
Defined.

(** ** Transcription *)

(** X5.  A transcribe request whose path exists and which the model takes
    is answered by one result response: its text is the first
    transcription the model returned, or the empty string when the model
    returned an empty list, and it gives back the file path and the id of
    the request as they came ([None] for an absent id).  The model is
    called once, with the one-element list of the path, before the response
    is printed; the loop goes on. *)
Theorem transcription_result (W : World) (n : nat) (line : string)
  (d : list (string * value)) (ts : list string) :
  request W line d ->
  assoc "command" d = Some (VStr "transcribe") ->
  os_path_exists W n (dict_get d "file_path") = Ok true ->
  model_transcribe W n [dict_get d "file_path"] = Ok ts ->
  exists o,
    goes_on W n line [Transcribe [dict_get d "file_path"]; Print o]
    /\ has_type o "result"
    /\ field o "text" = Some (VStr (match ts with
                                    | [] => ""
                                    | t :: _ => t
                                    end))
    /\ field o "file_path" = Some (dict_get d "file_path")
    /\ field o "id" = Some (dict_get d "id").
Proof.
  intros Hr Hc He Hm. eexists. split.
  - apply (handle_line_goes_on W n line _ Normal); [| discriminate].
    now apply (handle_line_result W n line d ts).
  - repeat split.
Qed.

Lemma transcription_result_witness :
  exists o,
    goes_on Demo.gpu_box 2 Demo.speech_line
      [Transcribe [VStr "speech.wav"]; Print o]
    /\ has_type o "result"
    /\ field o "text" = Some (VStr "hello world")
    /\ field o "file_path" = Some (VStr "speech.wav")
    /\ field o "id" = Some (VInt 7).
Proof.
  apply (transcription_result Demo.gpu_box 2 Demo.speech_line
           [("command", VStr "transcribe"); ("file_path", VStr "speech.wav");
            ("id", VInt 7)] ["hello world"%string]);
    [split | | |]; reflexivity.
Defined.

(** X6.  The model is called only for a transcribe request whose path
    [os.path.exists] found, with the one-element list of that path, and at
    most once for a line. *)
Theorem model_called_for_existing_files_only (W : World) (n : nat)
  (line : string) (files : list value) :
  In files (model_calls (fst (handle_line W n line))) ->
  exists d,
    request W line d
    /\ assoc "command" d = Some (VStr "transcribe")
    /\ os_path_exists W n (dict_get d "file_path") = Ok true
    /\ files = [dict_get d "file_path"]
    /\ model_calls (fst (handle_line W n line)) = [files].
Proof.
  destruct (truthy_str (strip line)) eqn:Hb.
  2: { rewrite (handle_line_blank W n line Hb). intros []. }
  rewrite (handle_line_try W n line Hb).
  destruct (loads W line) as [v | e] eqn:Hl.
  2: { rewrite (handle_request_malformed W n line e Hl). intros []. }
  assert (Hd : (exists d, v = VDict d) \/ (forall d, v <> VDict d)).
  { destruct v; try (right; discriminate). left. now exists d. }
  destruct Hd as [[d ->] | Hv].
  2: { rewrite (handle_request_not_object W n line v Hl Hv). intros []. }
  rewrite (handle_request_object W n line d Hl). cbn zeta.
  destruct (eq_str (dict_get d "command") "transcribe") eqn:Ht.
  - apply eq_str_dict_get in Ht.
    destruct (os_path_exists W n (dict_get d "file_path")) as [[] | e] eqn:He;
      [| intros [] | intros []].
    assert (Hok : forall fs,
              In fs [[dict_get d "file_path"]] ->
              exists d0,
                request W line d0
                /\ assoc "command" d0 = Some (VStr "transcribe")
                /\ os_path_exists W n (dict_get d0 "file_path") = Ok true
                /\ fs = [dict_get d0 "file_path"]
                /\ [[dict_get d "file_path"]] = [fs]).
    { intros fs [<- | []]. exists d. repeat split; assumption. }
    destruct (model_transcribe W n [dict_get d "file_path"]);
      cbn; apply Hok.
  - destruct (eq_str (dict_get d "command") "ping"); [cbn; intros [] |].
    destruct (eq_str (dict_get d "command") "exit"); cbn; intros [].
Qed.

Lemma model_called_for_existing_files_only_witness :
  exists d,
    request Demo.gpu_box Demo.noise_line d
    /\ assoc "command" d = Some (VStr "transcribe")
    /\ os_path_exists Demo.gpu_box 0 (dict_get d "file_path") = Ok true
    /\ [VStr "noise.wav"] = [dict_get d "file_path"]
    /\ model_calls (fst (handle_line Demo.gpu_box 0 Demo.noise_line))
       = [[VStr "noise.wav"]].
Proof.
  apply (model_called_for_existing_files_only Demo.gpu_box 0 Demo.noise_line).
  left. reflexivity.
Defined.

(** X7.  A transcribe request whose file path is [null], a float, an array
    or an object never reaches the model: [os.path.exists] raises a
    [TypeError] naming the type, which the server answers by one error
    response without id, and the loop goes on. *)
Theorem file_path_of_wrong_type (W : World) (n : nat) (line : string)
  (d : list (string * value)) :
  request W line d ->
  assoc "command" d = Some (VStr "transcribe") ->
  not_a_path (dict_get d "file_path") = true ->
  goes_on W n line
    [Print (VDict
              [("type", VStr "error");
               ("message",
                VStr ("stat: path should be string, bytes, os.PathLike or integer, not "
                      ++ type_name (dict_get d "file_path")))])].
Proof.
  intros [Hb Hl] Hc Hp.
  apply (handle_line_goes_on W n line _ Normal); [| discriminate].
  apply (handle_line_raise W n line []
           (mkExn TypeError
              ("stat: path should be string, bytes, os.PathLike or integer, not "
               ++ type_name (dict_get d "file_path")))).
  split; [exact Hb |].
  rewrite (handle_request_object W n line d Hl). cbn zeta.
  apply eq_str_dict_get in Hc. rewrite Hc.
  destruct (dict_get d "file_path"); try discriminate Hp; reflexivity.
Qed.

Lemma file_path_of_wrong_type_witness :
  goes_on Demo.gpu_box 0 Demo.no_path_line
    [Print (VDict
              [("type", VStr "error");
               ("message",
                VStr "stat: path should be string, bytes, os.PathLike or integer, not NoneType")])].
Proof.
  apply (file_path_of_wrong_type Demo.gpu_box 0 Demo.no_path_line
           [("command", VStr "transcribe"); ("id", VInt 9)]);
    [split | |]; reflexivity.
Defined.

(** X8.  The server looks at three fields of a request only: two requests
    that agree on [command], [file_path] and [id] (an absent field counting
    as [None]) are handled in the same way, whatever other fields they
    have. *)
Theorem other_fields_are_ignored (W : World) (n : nat) (line1 line2 : string)
  (d1 d2 : list (string * value)) :
  request W line1 d1 ->
  request W line2 d2 ->
  same_request d1 d2 ->
  handle_line W n line1 = handle_line W n line2.
Proof.
  intros [Hb1 Hl1] [Hb2 Hl2] [Hc [Hp Hi]].
  rewrite (handle_line_try W n line1 Hb1), (handle_line_try W n line2 Hb2),
    (handle_request_object W n line1 d1 Hl1),
    (handle_request_object W n line2 d2 Hl2).
  cbn zeta. now rewrite Hc, Hp, Hi.
Qed.

Lemma other_fields_are_ignored_witness :
  handle_line Demo2.tray_box 0 Demo2.tagged_ping_line
  = handle_line Demo2.tray_box 0 Demo.ping_line.
Proof.
  apply (other_fields_are_ignored Demo2.tray_box 0
           Demo2.tagged_ping_line Demo.ping_line
           [("command", VStr "ping"); ("client", VStr "tray")]
           [("command", VStr "ping")]);
    repeat split; reflexivity.
Defined.

(** ** The loop over a longer input *)

(** X9.  The loop handles an input piece by piece: when the first part of
    the input holds no exit request and no failing read, the trace of the
    whole is the trace of the first part followed by the trace of the
    rest (handled as the lines that come after), and the loop ends as it
    ends on the rest. *)
Theorem loop_composes (W : World) (pre post : list read_event) :
  (forall l, In (Line l) pre -> ~ command_is W l "exit") ->
  (forall e, ~ In (ReadFails e) pre) ->
  forall n,
    server_loop W n (pre ++ post)
    = (fst (server_loop W n pre)
         ++ fst (server_loop W (n + length pre) post),
       snd (server_loop W (n + length pre) post)).
Proof.
  induction pre as [| [l | e] pre IH]; intros Hx Hf n.
  - cbn [app length server_loop ret fst]. rewrite Nat.add_0_r.
    now destruct (server_loop W n post).
  - destruct (handle_line_cases W n l) as [evs [f [H Hc]]].
    assert (Hb : f <> Break).
    { intros ->. apply (Hx l); [now left |].
      now apply (line_case_break W n l evs Break Hc). }
    assert (IH' := IH (fun l' Hl => Hx l' (or_intror Hl))
                     (fun e' He => Hf e' (or_intror He)) (S n)).
    cbn [app length]. rewrite Nat.add_succ_r.
    rewrite !(server_loop_line W n l _ evs f H).
    destruct f; [| | now destruct Hb]; rewrite IH'; cbn [fst snd];
      now rewrite app_comm_cons, app_assoc.
  - destruct (Hf e). now left.
Qed.

Lemma loop_composes_witness :
  server_loop Demo.gpu_box 0
    ([Line Demo.ping_line; Line Demo.garbage_line] ++ [Line Demo.gone_line])
  = (fst (server_loop Demo.gpu_box 0
            [Line Demo.ping_line; Line Demo.garbage_line])
       ++ fst (server_loop Demo.gpu_box 2 [Line Demo.gone_line]),
     snd (server_loop Demo.gpu_box 2 [Line Demo.gone_line])).
Proof.
  apply (loop_composes Demo.gpu_box
           [Line Demo.ping_line; Line Demo.garbage_line]
           [Line Demo.gone_line]).
  - intros l [[= <-] | [[= <-] | []]] [d [[_ Hl] Hc]];
      vm_compute in Hl; try discriminate Hl.
    injection Hl as <-. discriminate Hc.
  - intros e [[=] | [[=] | []]].
Defined.

(** ** The shape of the responses *)

Lemma response_well_formed (o : value) : response o -> well_formed o = true.
Proof.
  intros []; reflexivity.
Qed.

(** X10.  Every object the server mode prints has exactly the fields of its
    type: [type], [status] (which is [ready]) and a string [device] for a
    status; [type], a string [text], [file_path] and [id] for a result;
    [type] and a string [message], with or without [id], for an error;
    [type] and a string [message] for a fatal; [type] alone for a pong. *)
Theorem responses_are_well_formed (W : World) (model_name : string)
  (stdin : list read_event) :
  forallb well_formed (printed (fst (run_server W model_name stdin))) = true.
Proof.
  apply forallb_forall. intros o Hin.
  apply response_well_formed.
  pose proof (run_server_responses W model_name stdin) as Hall.
  rewrite Forall_forall in Hall. now apply Hall.
Qed.

(** ** The three modes *)

Lemma check_gpu_prints_one (W : World) :
  exists o, check_gpu W = ([Print o], Ok tt).
Proof.
  destruct (probe_cases W) as [[Hi Ha] | [[name [Hi [Ha Hn]]] | [e He]]].
  - eexists. apply check_gpu_no_device; assumption.
  - eexists. apply (check_gpu_device W name); assumption.
  - eexists. apply check_gpu_failure. exact He.
Qed.

Lemma download_model_prints (W : World) (model_name : string) :
  exists o rest, download_model W model_name = (Print o :: rest, Ok tt).
Proof.
  unfold download_model, download_model_try.
  destruct (import_hub W) as [[] | e]; cbn; [| eauto].
  destruct (snapshot_download W model_name); cbn; eauto.
Qed.

Lemma import_cases (W : World) :
  imports_succeed W \/ exists e, import_fails W e.
Proof.
  destruct (import_torch W) as [[] | e] eqn:Ht.
  - destruct (import_nemo W) as [[] | e] eqn:Hn.
    + left. now split.
    + right. exists e. now apply fails_nemo.
  - right. exists e. now apply fails_torch.
Qed.

Lemma run_server_import_fails (W : World) (model_name : string)
  (stdin : list read_event) (e : exn) :
  import_fails W e ->
  run_server W model_name stdin
  = (if is_ImportError e
     then ([Print not_installed], SysExit 1)
     else ([], Uncaught e)).
Proof.
  unfold run_server. intros [Ht | Ht Hn].
  - rewrite Ht. reflexivity.
  - rewrite Ht, Hn. reflexivity.
Qed.

(** X11.  Whatever the mode, the process ends otherwise than by returning
    from its mode only in server mode and only because an import failed:
    with [sys.exit(1)] for an [ImportError], with the exception itself
    otherwise.  The probe and the download always return. *)
Theorem abnormal_end_is_import_failure (W : World) (args : Namespace)
  (stdin : list read_event) :
  snd (main W args stdin) <> Returned ->
  mode args = "server"%string
  /\ exists e,
      import_fails W e
      /\ snd (main W args stdin)
         = (if is_ImportError e then SysExit 1 else Uncaught e).
Proof.
  unfold main.
  destruct (String.eqb (mode args) "check-gpu").
  { destruct (check_gpu_prints_one W) as [o ->]. intros H. now destruct H. }
  destruct (String.eqb (mode args) "download").
  { destruct (download_model_prints W (model args)) as [o [rest ->]].
    intros H. now destruct H. }
  destruct (String.eqb (mode args) "server") eqn:Hm;
    [| intros H; now destruct H].
  apply String.eqb_eq in Hm. intros H. split; [exact Hm |].
  destruct (import_cases W) as [Hi | [e He]].
  - rewrite (run_server_imported W (model args) stdin Hi) in H.
    now destruct H.
  - exists e. split; [exact He |].
    rewrite (run_server_import_fails W (model args) stdin e He).
    now destruct (is_ImportError e).
Qed.

Lemma abnormal_end_is_import_failure_witness :
  mode {| mode := "server"; model := Demo.model_name |} = "server"%string
  /\ exists e,
      import_fails Demo.bare_box e
      /\ snd (main Demo.bare_box
                {| mode := "server"; model := Demo.model_name |} [])
         = (if is_ImportError e then SysExit 1 else Uncaught e).
Proof.
  apply (abnormal_end_is_import_failure Demo.bare_box
           {| mode := "server"; model := Demo.model_name |} []).
  vm_compute. discriminate.
Defined.

(** X12.  In each of the three modes the parser lets through, the process
    prints at least one JSON object on standard output, unless an
    exception leaves it (which happens only as said above). *)
Theorem every_mode_prints (W : World) (args : Namespace)
  (stdin : list read_event) :
  In (mode args) choices ->
  (forall e, snd (main W args stdin) <> Uncaught e) ->
  printed (fst (main W args stdin)) <> [].
Proof.
  unfold main. intros Hm.
  destruct (String.eqb (mode args) "check-gpu") eqn:Hg.
  { destruct (check_gpu_prints_one W) as [o ->]. discriminate. }
  destruct (String.eqb (mode args) "download") eqn:Hd.
  { destruct (download_model_prints W (model args)) as [o [rest ->]].
    discriminate. }
  destruct (String.eqb (mode args) "server") eqn:Hs.
  2: { apply String.eqb_neq in Hg, Hd, Hs.
       destruct Hm as [H | [H | [H | []]]]; now symmetry in H. }
  destruct (import_cases W) as [Hi | [e He]].
  - intros _. rewrite (run_server_imported W (model args) stdin Hi). cbn [fst].
    destruct (serve_cases W (model args) stdin)
      as [[e [_ ->]] | [service [_ ->]]]; discriminate.
  - rewrite (run_server_import_fails W (model args) stdin e He).
    destruct (is_ImportError e); [discriminate |].
    intros H. now destruct (H e).
Qed.

Lemma every_mode_prints_witness :
  printed (fst (main Demo.offline_box
                  {| mode := "download"; model := Demo.model_name |} []))
  <> [].
Proof.
  apply every_mode_prints.
  - right; left. reflexivity.
  - intros e. vm_compute. discriminate.
Defined.
